(** * Cluster waiter: the polling loops of [eks/cluster/wait/poll.go]

    A shallow embedding of package [wait]: the two error classifiers
    [IsDeleted] and [updateNotExists], the option plumbing ([Op],
    [WithQueryFunc], [applyOpts]) and the two polling goroutines started by
    [Poll] and [PollUpdate].

    The goroutines interact with their environment (the context, the stop
    channel, timers, the EKS API).  A run is modelled as a function of a
    script that lists, iteration by iteration, what the environment answered;
    the run yields the trace of what the goroutine did on its channel and
    towards its collaborators.

    What the model leaves out: logging; the capacity of the channel (every
    send is taken to complete, the consumer draining the channel); panics
    (the SDK returns a non-nil output whenever it returns a nil error, and
    the configured func returns).  Any sequence of answers is a script, also
    those no context can give, so what holds of all scripts holds of all
    runs. *)

From Stdlib Require Import Strings.String Strings.Ascii ZArith.ZArith Lists.List Bool.Bool Lia.
Import ListNotations.

Local Open Scope string_scope.
Local Open Scope Z_scope.
Local Open Scope list_scope.

(** ** Go strings *)

Module strings.

(** [strings.HasPrefix(s, prefix)]. *)
Fixpoint HasPrefix (s prefix : string) : bool :=
  match prefix with
  | EmptyString => true
  | String p prefix' =>
      match s with
      | EmptyString => false
      | String c s' => if Ascii.eqb c p then HasPrefix s' prefix' else false
      end
  end.

(** [strings.Contains(s, substr)]: some suffix of [s] starts with [substr]. *)
Fixpoint Contains (s substr : string) : bool :=
  HasPrefix s substr ||
  match s with
  | EmptyString => false
  | String _ s' => Contains s' substr
  end.

End strings.

(** ** Go errors *)

(** [ctx.Err()] of a finished context: [context.Canceled] or
    [context.DeadlineExceeded]. *)
Inductive CtxError := Canceled | DeadlineExceeded.

(** The non-nil [error] values the package meets.  [ErrAws] is a value whose
    dynamic type implements [awserr.Error]: it answers [Code()], [Message()]
    and [Error()], and nothing relates the three.  [ErrNew] is what
    [errors.New] and [fmt.Errorf] build, and any other plain error. *)
Inductive error :=
| ErrCtx (e : CtxError)
| ErrNew (text : string)
| ErrAws (code message text : string).

(** [err.Error()]. *)
Definition Error_text (err : error) : string :=
  match err with
  | ErrCtx Canceled => "context canceled"
  | ErrCtx DeadlineExceeded => "context deadline exceeded"
  | ErrNew text => text
  | ErrAws _ _ text => text
  end.

(** The type assertion [err.(awserr.Error)], giving [Code()] and [Message()]. *)
Definition as_awserr (err : error) : option (string * string) :=
  match err with
  | ErrAws code message _ => Some (code, message)
  | _ => None
  end.

(** ** Error classifiers *)

(** [IsDeleted]; [None] is the nil error. *)
Definition IsDeleted (err : option error) : bool :=
  match err with
  | None => false
  | Some e =>
      match as_awserr e with
      | Some (code, message) =>
          if (code =? "ResourceNotFoundException")%string &&
             strings.HasPrefix message "No cluster found for"
          then true
          else strings.Contains (Error_text e) "No cluster found for name: "
      | None => strings.Contains (Error_text e) "No cluster found for name: "
      end
  end.

(** [updateNotExists]. *)
Definition updateNotExists (err : option error) : bool :=
  match err with
  | None => false
  | Some e =>
      match as_awserr e with
      | Some (code, message) =>
          if (code =? "ResourceNotFoundException")%string &&
             strings.HasPrefix message "No update found for"
          then true
          else strings.Contains (Error_text e) "No update found"
      | None => strings.Contains (Error_text e) "No update found"
      end
  end.

(** ** The SDK's data, as far as the waiter looks at it *)

Module aws.
(** [aws.StringValue]: the pointed-to string, the empty string for nil. *)
Definition StringValue (p : option string) : string :=
  match p with Some s => s | None => EmptyString end.
End aws.

Module eks.
Module Cluster.
Record t := { Name : option string; Status : option string }.
End Cluster.
Module Update.
Record t := { Id : option string; Status : option string; Type_ : option string }.
End Update.
Module DescribeClusterOutput.
Record t := { Cluster : option Cluster.t }.
End DescribeClusterOutput.
Module DescribeUpdateOutput.
Record t := { Update : option Update.t }.
End DescribeUpdateOutput.

(** Status constants of [aws-sdk-go/service/eks]. *)
Definition ClusterStatusFailed : string := "FAILED".
Definition UpdateStatusCancelled : string := "Cancelled".
Definition UpdateStatusFailed : string := "Failed".
End eks.

Module time.
(** [time.Duration]: nanoseconds. *)
Definition Duration := Z.
Definition Second : Duration := 1000000000.
End time.

Module fmt.
(** The verb [%q] on a string of printable ASCII without quotes or
    backslashes (the status constants): the string between double quotes. *)
Definition quoted (s : string) : string :=
  String "034"%char (s ++ String "034"%char EmptyString)%string.
End fmt.

(** ** Events, options *)

Module ClusterStatus.
Record t := { Cluster : option eks.Cluster.t; Error : option error }.
End ClusterStatus.

Module UpdateStatus.
Record t := { Update : option eks.Update.t; Error : option error }.
End UpdateStatus.

(** A Go [func()] value, known by a name; [None] is the nil func. *)
Definition func := nat.

Record Op := { queryFunc : option func }.

Definition OpOption := Op -> Op.

Definition WithQueryFunc (f : option func) : OpOption :=
  fun _ => {| queryFunc := f |}.

Definition applyOpts (op : Op) (opts : list OpOption) : Op :=
  fold_left (fun op opt => opt op) opts op.

(** ** Environment and traces *)

(** Which case of a [select] over [ctx.Done()], [stopc] and [time.After]
    fires.  When [ctx.Done()] fires, [ctx.Err()] is the non-nil [e]. *)
Inductive SelectCase := CtxDone (e : CtxError) | Stopc | TimeAfter.

(** What the environment answers during one iteration of the [for] loop, in
    the order the loop asks; an answer the iteration does not reach is not
    read.  [Out] is the output type of the Describe call; the SDK returns a
    non-nil output whenever the error is nil. *)
Record Iteration (Out : Type) := {
  ctxErr : option CtxError;          (* [ctx.Err()] in the loop guard *)
  selected : SelectCase;             (* the [select] at the head of the loop *)
  response : Out * option error;     (* [output, err := eksAPI.Describe...] *)
  selectedInitial : SelectCase;      (* the [select] on [initialWait] *)
}.
Arguments ctxErr {Out} _.
Arguments selected {Out} _.
Arguments response {Out} _.
Arguments selectedInitial {Out} _.

(** What the goroutine does, in order. *)
Inductive action (Out Ev : Type) :=
| RecvDone (e : CtxError)                  (* [case <-ctx.Done()] *)
| RecvStop                                 (* [case <-stopc] *)
| RecvTimer (d : time.Duration)            (* [case <-time.After(d)] *)
| Describe (output : Out) (err : option error)
| Send (ev : Ev)                           (* [ch <- ev] *)
| Close                                    (* [close(ch)] *)
| QueryFunc (f : func).                    (* [ret.queryFunc()] *)
Arguments RecvDone {Out Ev} _.
Arguments RecvStop {Out Ev}.
Arguments RecvTimer {Out Ev} _.
Arguments Describe {Out Ev} _ _.
Arguments Send {Out Ev} _.
Arguments Close {Out Ev}.
Arguments QueryFunc {Out Ev} _.

(** The loop variables. *)
Record LoopState := { waitDur : time.Duration; first : bool }.

(** [waitDur] after the [time.After(waitDur)] case. *)
Definition nextWaitDur (waitDur pollInterval : time.Duration) : time.Duration :=
  if waitDur =? 0 then pollInterval else waitDur.

(** [if ret.queryFunc != nil { ret.queryFunc() }]. *)
Definition callQueryFunc {Out Ev} (ret : Op) : list (action Out Ev) :=
  match queryFunc ret with
  | Some f => [QueryFunc f]
  | None => []
  end.

(** ** The polling goroutines *)

(** The actions of the two goroutines. *)
Abbreviation ClusterAction := (action eks.DescribeClusterOutput.t ClusterStatus.t).
Abbreviation UpdateAction := (action eks.DescribeUpdateOutput.t UpdateStatus.t).

Section Wait.

(** [eksconfig.ClusterStatusDELETEDORNOTEXIST]: the loops only compare
    against it, so its value is left open. *)
Variable ClusterStatusDELETEDORNOTEXIST : string.

(** [output.GoString()] of the SDK's two output types. *)
Variable DescribeClusterOutput_GoString : eks.DescribeClusterOutput.t -> string.
Variable DescribeUpdateOutput_GoString : eks.DescribeUpdateOutput.t -> string.

Definition errWaitStopped : error := ErrNew "wait stopped".

Definition errEmptyCluster (output : eks.DescribeClusterOutput.t) : error :=
  ErrNew ("unexpected empty response " ++ DescribeClusterOutput_GoString output)%string.

Definition errEmptyUpdate (output : eks.DescribeUpdateOutput.t) : error :=
  ErrNew ("unexpected empty response " ++ DescribeUpdateOutput_GoString output)%string.

Definition errClusterStatus (status : string) : error :=
  ErrNew ("unexpected cluster status " ++ fmt.quoted status)%string.

Definition errUpdateStatus (status : string) : error :=
  ErrNew ("unexpected cluster update status " ++ fmt.quoted status)%string.

(** One pass through the body of the [for] loop of [Poll], the guard
    [ctx.Err() == nil] having held: what the goroutine does, and the loop
    variables for the next pass ([None] when the goroutine returned). *)
Definition Poll_body (desiredClusterStatus : string)
    (initialWait pollInterval : time.Duration) (ret : Op)
    (st : LoopState) (it : Iteration eks.DescribeClusterOutput.t)
  : list ClusterAction * option LoopState :=
  match selected it with
  | CtxDone e =>
      ([RecvDone e;
        Send {| ClusterStatus.Cluster := None; ClusterStatus.Error := Some (ErrCtx e) |};
        Close], None)
  | Stopc =>
      ([RecvStop;
        Send {| ClusterStatus.Cluster := None; ClusterStatus.Error := Some errWaitStopped |};
        Close], None)
  | TimeAfter =>
      let waitDur' := nextWaitDur (waitDur st) pollInterval in
      let (output, err) := response it in
      let asked := [RecvTimer (waitDur st); Describe output err] in
      match err with
      | Some _ =>
          if IsDeleted err then
            if (desiredClusterStatus =? ClusterStatusDELETEDORNOTEXIST)%string then
              (asked ++
               [Send {| ClusterStatus.Cluster := None; ClusterStatus.Error := None |};
                Close], None)
            else
              (asked ++
               [Send {| ClusterStatus.Cluster := None; ClusterStatus.Error := err |};
                Close], None)
          else
            (* continue *)
            (asked ++
             [Send {| ClusterStatus.Cluster := None; ClusterStatus.Error := err |}],
             Some {| waitDur := waitDur'; first := first st |})
      | None =>
          match eks.DescribeClusterOutput.Cluster output with
          | None =>
              (* continue *)
              (asked ++
               [Send {| ClusterStatus.Cluster := None;
                        ClusterStatus.Error := Some (errEmptyCluster output) |}],
               Some {| waitDur := waitDur'; first := first st |})
          | Some cluster =>
              let currentStatus := aws.StringValue (eks.Cluster.Status cluster) in
              if (currentStatus =? desiredClusterStatus)%string then
                (asked ++
                 [Send {| ClusterStatus.Cluster := Some cluster;
                          ClusterStatus.Error := None |};
                  Close], None)
              else if (currentStatus =? eks.ClusterStatusFailed)%string then
                (asked ++
                 [Send {| ClusterStatus.Cluster := Some cluster;
                          ClusterStatus.Error :=
                            Some (errClusterStatus eks.ClusterStatusFailed) |};
                  Close], None)
              else
                let polled :=
                  asked ++
                  [Send {| ClusterStatus.Cluster := Some cluster;
                           ClusterStatus.Error := None |}] ++
                  callQueryFunc ret in
                if first st then
                  match selectedInitial it with
                  | CtxDone e =>
                      (polled ++
                       [RecvDone e;
                        Send {| ClusterStatus.Cluster := None;
                                ClusterStatus.Error := Some (ErrCtx e) |};
                        Close], None)
                  | Stopc =>
                      (polled ++
                       [RecvStop;
                        Send {| ClusterStatus.Cluster := None;
                                ClusterStatus.Error := Some errWaitStopped |};
                        Close], None)
                  | TimeAfter =>
                      (polled ++ [RecvTimer initialWait],
                       Some {| waitDur := waitDur'; first := false |})
                  end
                else
                  (polled, Some {| waitDur := waitDur'; first := first st |})
          end
      end
  end.

(** The [for ctx.Err() == nil] loop of [Poll] and what follows it, over the
    answers of the environment.  The boolean tells whether the goroutine
    returned; it is [false] when the script ends while the loop is still
    going. *)
Fixpoint Poll_loop (desiredClusterStatus : string)
    (initialWait pollInterval : time.Duration) (ret : Op)
    (st : LoopState) (script : list (Iteration eks.DescribeClusterOutput.t))
  : list ClusterAction * bool :=
  match script with
  | [] => ([], false)
  | it :: script' =>
      match ctxErr it with
      | Some e =>
          ([Send {| ClusterStatus.Cluster := None; ClusterStatus.Error := Some (ErrCtx e) |};
            Close], true)
      | None =>
          match Poll_body desiredClusterStatus initialWait pollInterval ret st it with
          | (done, None) => (done, true)
          | (done, Some st') =>
              let (rest, returned) :=
                Poll_loop desiredClusterStatus initialWait pollInterval ret st' script' in
              (done ++ rest, returned)
          end
      end
  end.

(** [Poll]: the goroutine's run.  The arguments [ctx], [stopc] and [eksAPI]
    are the script; [lg] and [clusterName] do not reach the channel. *)
Definition Poll (desiredClusterStatus : string)
    (initialWait pollInterval : time.Duration) (opts : list OpOption)
    (script : list (Iteration eks.DescribeClusterOutput.t))
  : list ClusterAction * bool :=
  let ret := applyOpts {| queryFunc := None |} opts in
  Poll_loop desiredClusterStatus initialWait pollInterval ret
    {| waitDur := 0; first := true |} script.

(** One pass through the body of the [for] loop of [PollUpdate]. *)
Definition PollUpdate_body (desiredUpdateStatus : string)
    (initialWait pollInterval : time.Duration) (ret : Op)
    (st : LoopState) (it : Iteration eks.DescribeUpdateOutput.t)
  : list UpdateAction * option LoopState :=
  match selected it with
  | CtxDone e =>
      ([RecvDone e;
        Send {| UpdateStatus.Update := None; UpdateStatus.Error := Some (ErrCtx e) |};
        Close], None)
  | Stopc =>
      ([RecvStop;
        Send {| UpdateStatus.Update := None; UpdateStatus.Error := Some errWaitStopped |};
        Close], None)
  | TimeAfter =>
      let waitDur' := nextWaitDur (waitDur st) pollInterval in
      let (output, err) := response it in
      let asked := [RecvTimer (waitDur st); Describe output err] in
      match err with
      | Some _ =>
          if updateNotExists err then
            (asked ++
             [Send {| UpdateStatus.Update := None; UpdateStatus.Error := err |};
              Close], None)
          else
            (* continue *)
            (asked ++
             [Send {| UpdateStatus.Update := None; UpdateStatus.Error := err |}],
             Some {| waitDur := waitDur'; first := first st |})
      | None =>
          match eks.DescribeUpdateOutput.Update output with
          | None =>
              (* continue *)
              (asked ++
               [Send {| UpdateStatus.Update := None;
                        UpdateStatus.Error := Some (errEmptyUpdate output) |}],
               Some {| waitDur := waitDur'; first := first st |})
          | Some update =>
              let currentStatus := aws.StringValue (eks.Update.Status update) in
              if (currentStatus =? desiredUpdateStatus)%string then
                (asked ++
                 [Send {| UpdateStatus.Update := Some update;
                          UpdateStatus.Error := None |};
                  Close], None)
              else if (currentStatus =? eks.UpdateStatusCancelled)%string then
                (asked ++
                 [Send {| UpdateStatus.Update := Some update;
                          UpdateStatus.Error :=
                            Some (errUpdateStatus eks.UpdateStatusCancelled) |};
                  Close], None)
              else if (currentStatus =? eks.UpdateStatusFailed)%string then
                (asked ++
                 [Send {| UpdateStatus.Update := Some update;
                          UpdateStatus.Error :=
                            Some (errUpdateStatus eks.UpdateStatusFailed) |};
                  Close], None)
              else
                let polled :=
                  asked ++
                  [Send {| UpdateStatus.Update := Some update;
                           UpdateStatus.Error := None |}] ++
                  callQueryFunc ret in
                if first st then
                  match selectedInitial it with
                  | CtxDone e =>
                      (polled ++
                       [RecvDone e;
                        Send {| UpdateStatus.Update := None;
                                UpdateStatus.Error := Some (ErrCtx e) |};
                        Close], None)
                  | Stopc =>
                      (polled ++
                       [RecvStop;
                        Send {| UpdateStatus.Update := None;
                                UpdateStatus.Error := Some errWaitStopped |};
                        Close], None)
                  | TimeAfter =>
                      (polled ++ [RecvTimer initialWait],
                       Some {| waitDur := waitDur'; first := false |})
                  end
                else
                  (polled, Some {| waitDur := waitDur'; first := first st |})
          end
      end
  end.

(** The loop of [PollUpdate] and what follows it. *)
Fixpoint PollUpdate_loop (desiredUpdateStatus : string)
    (initialWait pollInterval : time.Duration) (ret : Op)
    (st : LoopState) (script : list (Iteration eks.DescribeUpdateOutput.t))
  : list UpdateAction * bool :=
  match script with
  | [] => ([], false)
  | it :: script' =>
      match ctxErr it with
      | Some e =>
          ([Send {| UpdateStatus.Update := None; UpdateStatus.Error := Some (ErrCtx e) |};
            Close], true)
      | None =>
          match PollUpdate_body desiredUpdateStatus initialWait pollInterval ret st it with
          | (done, None) => (done, true)
          | (done, Some st') =>
              let (rest, returned) :=
                PollUpdate_loop desiredUpdateStatus initialWait pollInterval ret st' script' in
              (done ++ rest, returned)
          end
      end
  end.

(** [PollUpdate]; [requestID], like [clusterName], only goes into the
    request. *)
Definition PollUpdate (desiredUpdateStatus : string)
    (initialWait pollInterval : time.Duration) (opts : list OpOption)
    (script : list (Iteration eks.DescribeUpdateOutput.t))
  : list UpdateAction * bool :=
  let ret := applyOpts {| queryFunc := None |} opts in
  PollUpdate_loop desiredUpdateStatus initialWait pollInterval ret
    {| waitDur := 0; first := true |} script.

End Wait.

(** ** Reading traces *)

Section Traces.

Context {Out Ev : Type}.

(** The events sent on the channel, in order. *)
Fixpoint events (tr : list (action Out Ev)) : list Ev :=
  match tr with
  | [] => []
  | Send ev :: tr' => ev :: events tr'
  | _ :: tr' => events tr'
  end.

(** The durations of the timers that fired, in order. *)
Fixpoint timers (tr : list (action Out Ev)) : list time.Duration :=
  match tr with
  | [] => []
  | RecvTimer d :: tr' => d :: timers tr'
  | _ :: tr' => timers tr'
  end.

(** The events with the earliest instant at which each can be sent, the
    goroutine starting at [now]: a timer of duration [d] takes [d] (nothing
    when [d] is negative) and every other step takes no time. *)
Fixpoint timeline (now : Z) (tr : list (action Out Ev)) : list (Z * Ev) :=
  match tr with
  | [] => []
  | RecvTimer d :: tr' => timeline (now + Z.max 0 d) tr'
  | Send ev :: tr' => (now, ev) :: timeline now tr'
  | _ :: tr' => timeline now tr'
  end.

(** [P x post] for every action [x] of the trace and the actions [post]
    that follow it. *)
Fixpoint ForallTails (P : action Out Ev -> list (action Out Ev) -> Prop)
    (tr : list (action Out Ev)) : Prop :=
  match tr with
  | [] => True
  | x :: tr' => P x tr' /\ ForallTails P tr'
  end.

(** An iteration in which the context is live, no signal fires at either
    wait and the Describe call returns [r]. *)
Definition answers (r : Out * option error) : Iteration Out :=
  {| ctxErr := None; selected := TimeAfter; response := r;
     selectedInitial := TimeAfter |}.

End Traces.

(** Exactly one of the two fields of an event is set. *)
Definition one_field {A B} (a : option A) (b : option B) : bool :=
  match a, b with
  | Some _, None | None, Some _ => true
  | _, _ => false
  end.

(** A Describe response the loops retry: an error that the classifier does
    not take for absence, or no error and no payload. *)
Definition retried {Out A} (absent : option error -> bool) (payload : Out -> option A)
    (r : Out * option error) : bool :=
  match snd r with
  | Some _ => negb (absent (snd r))
  | None => match payload (fst r) with None => true | Some _ => false end
  end.

(** ** Vocabulary of the properties *)

Section Vocabulary.

Variable DEL : string.
Variable GoC : eks.DescribeClusterOutput.t -> string.
Variable GoU : eks.DescribeUpdateOutput.t -> string.

(** The shape both classifiers share: a structured error with the code and a
    message prefix, or the fallback text anywhere in [Error()]. *)
Definition not_found (prefix fallback : string) (e : error) : Prop :=
  (exists message rest,
      as_awserr e = Some ("ResourceNotFoundException", message) /\
      message = (prefix ++ rest)%string) \/
  (exists before after, Error_text e = (before ++ fallback ++ after)%string).

(** The shape of a run as far as closing goes: [Close] ends the trace of a
    goroutine that returned, and stands nowhere else. *)
Definition closes_last {Out Ev} (tr : list (action Out Ev)) (returned : bool) : Prop :=
  exists body, tr = body ++ (if returned then [Close] else []) /\ ~ In Close body.

(** What must follow a Describe call that fails with an absence error. *)
Definition absence_tail (desired : string) (x : ClusterAction) (post : list ClusterAction)
  : Prop :=
  match x with
  | Describe _ (Some e) =>
      IsDeleted (Some e) = true ->
      post =
        [Send {| ClusterStatus.Cluster := None;
                 ClusterStatus.Error :=
                   if (desired =? DEL)%string then None else Some e |};
         Close]
  | _ => True
  end.

Definition update_absence_tail (x : UpdateAction) (post : list UpdateAction) : Prop :=
  match x with
  | Describe _ (Some e) =>
      updateNotExists (Some e) = true ->
      post =
        [Send {| UpdateStatus.Update := None; UpdateStatus.Error := Some e |}; Close]
  | _ => True
  end.

(** What must follow a Describe call that returns the desired status. *)
Definition desired_tail (desired : string) (x : ClusterAction) (post : list ClusterAction)
  : Prop :=
  match x with
  | Describe output None =>
      forall cluster,
        eks.DescribeClusterOutput.Cluster output = Some cluster ->
        aws.StringValue (eks.Cluster.Status cluster) = desired ->
        post =
          [Send {| ClusterStatus.Cluster := Some cluster; ClusterStatus.Error := None |};
           Close]
  | _ => True
  end.

Definition update_desired_tail (desired : string) (x : UpdateAction)
    (post : list UpdateAction) : Prop :=
  match x with
  | Describe output None =>
      forall update,
        eks.DescribeUpdateOutput.Update output = Some update ->
        aws.StringValue (eks.Update.Status update) = desired ->
        post =
          [Send {| UpdateStatus.Update := Some update; UpdateStatus.Error := None |};
           Close]
  | _ => True
  end.



(** The events of [Poll]: one field set, or one of the two closing events
    that differ. *)
Definition cluster_event_shape (desired : string) (x : ClusterAction)
    (post : list ClusterAction) : Prop :=
  match x with
  | Send ev =>
      one_field (ClusterStatus.Cluster ev) (ClusterStatus.Error ev) = true \/
      (post = [Close] /\
       ((ev = {| ClusterStatus.Cluster := None; ClusterStatus.Error := None |} /\
         desired = DEL) \/
        (exists cluster,
            ev = {| ClusterStatus.Cluster := Some cluster;
                    ClusterStatus.Error :=
                      Some (errClusterStatus eks.ClusterStatusFailed) |} /\
            aws.StringValue (eks.Cluster.Status cluster) = eks.ClusterStatusFailed /\
            desired <> eks.ClusterStatusFailed)))
  | _ => True
  end.

Definition update_event_shape (desired : string) (x : UpdateAction)
    (post : list UpdateAction) : Prop :=
  match x with
  | Send ev =>
      one_field (UpdateStatus.Update ev) (UpdateStatus.Error ev) = true \/
      (post = [Close] /\
       exists update status,
         ev = {| UpdateStatus.Update := Some update;
                 UpdateStatus.Error := Some (errUpdateStatus status) |} /\
         aws.StringValue (eks.Update.Status update) = status /\
         (status = eks.UpdateStatusCancelled \/ status = eks.UpdateStatusFailed) /\
         desired <> status)
  | _ => True
  end.

(** The event sent for a retried response: the query error, or the error
    on the empty response. *)
Definition clusterRetryEvent (r : eks.DescribeClusterOutput.t * option error)
  : ClusterStatus.t :=
  {| ClusterStatus.Cluster := None;
     ClusterStatus.Error :=
       match snd r with
       | Some e => Some e
       | None => Some (errEmptyCluster GoC (fst r))
       end |}.

Definition updateRetryEvent (r : eks.DescribeUpdateOutput.t * option error)
  : UpdateStatus.t :=
  {| UpdateStatus.Update := None;
     UpdateStatus.Error :=
       match snd r with
       | Some e => Some e
       | None => Some (errEmptyUpdate GoU (fst r))
       end |}.

(** What must follow a Describe call whose response is retried: the error
    event and then anything but the closing of the channel. *)
Definition retry_tail (x : ClusterAction) (post : list ClusterAction) : Prop :=
  match x with
  | Describe output err =>
      retried IsDeleted eks.DescribeClusterOutput.Cluster (output, err) = true ->
      exists post',
        post = Send (clusterRetryEvent (output, err)) :: post' /\
        forall post'', post' <> Close :: post''
  | _ => True
  end.

Definition update_retry_tail (x : UpdateAction) (post : list UpdateAction) : Prop :=
  match x with
  | Describe output err =>
      retried updateNotExists eks.DescribeUpdateOutput.Update (output, err) = true ->
      exists post',
        post = Send (updateRetryEvent (output, err)) :: post' /\
        forall post'', post' <> Close :: post''
  | _ => True
  end.

(** A trace that does not begin with the closing of the channel. *)
Definition starts_open {Out Ev} (tr : list (action Out Ev)) : Prop :=
  forall post, tr <> Close :: post.

(** The timers of [n] passes from [waitDur]. *)
Definition waits (waitDur pollInterval : time.Duration) (n : nat) : list time.Duration :=
  match n with
  | O => []
  | S n' => waitDur :: repeat (nextWaitDur waitDur pollInterval) n'
  end.

(** The loop variables after the passes over [rs], all retried. *)
Definition afterRetries {A} (pi : time.Duration) (st : LoopState) (rs : list A) : LoopState :=
  match rs with
  | [] => st
  | _ :: _ => {| waitDur := nextWaitDur (waitDur st) pi; first := first st |}
  end.

(** What stands around a call of [queryFunc], [called] telling which func
    the options left in [ret]. *)
Definition callback_tail (called : option func) (desired : string)
    (x : ClusterAction) (post : list ClusterAction) : Prop :=
  (forall cluster f,
      x = Send {| ClusterStatus.Cluster := Some cluster; ClusterStatus.Error := None |} ->
      aws.StringValue (eks.Cluster.Status cluster) <> desired ->
      called = Some f ->
      exists post', post = QueryFunc f :: post') /\
  (forall g post',
      post = QueryFunc g :: post' ->
      called = Some g /\
      exists cluster,
        x = Send {| ClusterStatus.Cluster := Some cluster; ClusterStatus.Error := None |} /\
        aws.StringValue (eks.Cluster.Status cluster) <> desired /\
        aws.StringValue (eks.Cluster.Status cluster) <> eks.ClusterStatusFailed).

Definition update_callback_tail (called : option func) (desired : string)
    (x : UpdateAction) (post : list UpdateAction) : Prop :=
  (forall update f,
      x = Send {| UpdateStatus.Update := Some update; UpdateStatus.Error := None |} ->
      aws.StringValue (eks.Update.Status update) <> desired ->
      called = Some f ->
      exists post', post = QueryFunc f :: post') /\
  (forall g post',
      post = QueryFunc g :: post' ->
      called = Some g /\
      exists update,
        x = Send {| UpdateStatus.Update := Some update; UpdateStatus.Error := None |} /\
        aws.StringValue (eks.Update.Status update) <> desired /\
        aws.StringValue (eks.Update.Status update) <> eks.UpdateStatusCancelled /\
        aws.StringValue (eks.Update.Status update) <> eks.UpdateStatusFailed).

(** A trace that does not begin with a call of [queryFunc]. *)
Definition starts_quiet {Out Ev} (tr : list (action Out Ev)) : Prop :=
  forall g post, tr <> QueryFunc g :: post.

(** A status that ends nothing: neither the desired nor the failure one. *)
Definition pending (desired : string) (cluster : eks.Cluster.t) : Prop :=
  aws.StringValue (eks.Cluster.Status cluster) <> desired /\
  aws.StringValue (eks.Cluster.Status cluster) <> eks.ClusterStatusFailed.

End Vocabulary.

(** ** Queries, timers and last events *)

Section Reading.

Context {Out Ev : Type}.

(** The responses of the Describe calls, in order. *)
Fixpoint describes (tr : list (action Out Ev)) : list (Out * option error) :=
  match tr with
  | [] => []
  | Describe output err :: tr' => (output, err) :: describes tr'
  | _ :: tr' => describes tr'
  end.

(** The durations of the timers that a Describe call follows at once: the
    waits at the head of the loop. *)
Fixpoint headTimers (tr : list (action Out Ev)) : list time.Duration :=
  match tr with
  | [] => []
  | RecvTimer d :: tr' =>
      match tr' with
      | Describe _ _ :: _ => d :: headTimers tr'
      | _ => headTimers tr'
      end
  | _ :: tr' => headTimers tr'
  end.

(** The durations of the other timers. *)
Fixpoint sleepTimers (tr : list (action Out Ev)) : list time.Duration :=
  match tr with
  | [] => []
  | RecvTimer d :: tr' =>
      match tr' with
      | Describe _ _ :: _ => sleepTimers tr'
      | _ => d :: sleepTimers tr'
      end
  | _ :: tr' => sleepTimers tr'
  end.

(** A trace that does not begin with a Describe call. *)
Definition starts_waiting (tr : list (action Out Ev)) : Prop :=
  forall output err post, tr <> Describe output err :: post.

End Reading.

Section Outcomes.

Variable DEL : string.
Variable GoC : eks.DescribeClusterOutput.t -> string.
Variable GoU : eks.DescribeUpdateOutput.t -> string.

(** What must follow a Describe call that returns a failure status other
    than the desired one. *)
Definition failure_tail (desired : string) (x : ClusterAction) (post : list ClusterAction)
  : Prop :=
  match x with
  | Describe output None =>
      forall cluster,
        eks.DescribeClusterOutput.Cluster output = Some cluster ->
        aws.StringValue (eks.Cluster.Status cluster) = eks.ClusterStatusFailed ->
        desired <> eks.ClusterStatusFailed ->
        post =
          [Send {| ClusterStatus.Cluster := Some cluster;
                   ClusterStatus.Error := Some (errClusterStatus eks.ClusterStatusFailed) |};
           Close]
  | _ => True
  end.

Definition update_failure_tail (desired : string) (x : UpdateAction)
    (post : list UpdateAction) : Prop :=
  match x with
  | Describe output None =>
      forall update status,
        eks.DescribeUpdateOutput.Update output = Some update ->
        aws.StringValue (eks.Update.Status update) = status ->
        status = eks.UpdateStatusCancelled \/ status = eks.UpdateStatusFailed ->
        desired <> status ->
        post =
          [Send {| UpdateStatus.Update := Some update;
                   UpdateStatus.Error := Some (errUpdateStatus status) |};
           Close]
  | _ => True
  end.

(** What must follow any Describe call: an event that reports it. *)
Definition report_tail (desired : string) (x : ClusterAction) (post : list ClusterAction)
  : Prop :=
  match x with
  | Describe output err =>
      exists ev post',
        post = Send ev :: post' /\
        match err with
        | Some e =>
            ClusterStatus.Cluster ev = None /\
            (ClusterStatus.Error ev = Some e \/
             (ClusterStatus.Error ev = None /\ IsDeleted err = true /\ desired = DEL))
        | None =>
            ClusterStatus.Cluster ev = eks.DescribeClusterOutput.Cluster output /\
            (eks.DescribeClusterOutput.Cluster output = None ->
             ClusterStatus.Error ev = Some (errEmptyCluster GoC output))
        end
  | _ => True
  end.

Definition update_report_tail (x : UpdateAction) (post : list UpdateAction) : Prop :=
  match x with
  | Describe output err =>
      exists ev post',
        post = Send ev :: post' /\
        match err with
        | Some e => UpdateStatus.Update ev = None /\ UpdateStatus.Error ev = Some e
        | None =>
            UpdateStatus.Update ev = eks.DescribeUpdateOutput.Update output /\
            (eks.DescribeUpdateOutput.Update output = None ->
             UpdateStatus.Error ev = Some (errEmptyUpdate GoU output))
        end
  | _ => True
  end.

(** The events that can be the last of a run of [Poll]: the context's
    error, the stop error, the success on the absence that was desired, the
    absence that was not, the snapshot with the desired status, the snapshot
    with the failure status. *)
Definition final_event (desired : string) (ev : ClusterStatus.t) : Prop :=
  (exists e,
      ev = {| ClusterStatus.Cluster := None; ClusterStatus.Error := Some (ErrCtx e) |}) \/
  ev = {| ClusterStatus.Cluster := None; ClusterStatus.Error := Some errWaitStopped |} \/
  (ev = {| ClusterStatus.Cluster := None; ClusterStatus.Error := None |} /\
   desired = DEL) \/
  (exists e,
      ev = {| ClusterStatus.Cluster := None; ClusterStatus.Error := Some e |} /\
      IsDeleted (Some e) = true /\ desired <> DEL) \/
  (exists cluster,
      ev = {| ClusterStatus.Cluster := Some cluster; ClusterStatus.Error := None |} /\
      aws.StringValue (eks.Cluster.Status cluster) = desired) \/
  (exists cluster,
      ev = {| ClusterStatus.Cluster := Some cluster;
              ClusterStatus.Error := Some (errClusterStatus eks.ClusterStatusFailed) |} /\
      aws.StringValue (eks.Cluster.Status cluster) = eks.ClusterStatusFailed /\
      desired <> eks.ClusterStatusFailed).

(** The events that can be the last of a run of [PollUpdate]. *)
Definition update_final_event (desired : string) (ev : UpdateStatus.t) : Prop :=
  (exists e,
      ev = {| UpdateStatus.Update := None; UpdateStatus.Error := Some (ErrCtx e) |}) \/
  ev = {| UpdateStatus.Update := None; UpdateStatus.Error := Some errWaitStopped |} \/
  (exists e,
      ev = {| UpdateStatus.Update := None; UpdateStatus.Error := Some e |} /\
      updateNotExists (Some e) = true) \/
  (exists update,
      ev = {| UpdateStatus.Update := Some update; UpdateStatus.Error := None |} /\
      aws.StringValue (eks.Update.Status update) = desired) \/
  (exists update status,
      ev = {| UpdateStatus.Update := Some update;
              UpdateStatus.Error := Some (errUpdateStatus status) |} /\
      aws.StringValue (eks.Update.Status update) = status /\
      (status = eks.UpdateStatusCancelled \/ status = eks.UpdateStatusFailed) /\
      desired <> status).

(** What stands before the closing of the channel. *)
Definition close_tail (desired : string) (x : ClusterAction) (post : list ClusterAction)
  : Prop :=
  forall post', post = Close :: post' -> exists ev, x = Send ev /\ final_event desired ev.

Definition update_close_tail (desired : string) (x : UpdateAction)
    (post : list UpdateAction) : Prop :=
  forall post',
    post = Close :: post' -> exists ev, x = Send ev /\ update_final_event desired ev.

(** A response after which the loop of [Poll] goes on: an error that is not
    taken for absence, an empty payload, or a status that is neither the
    desired one nor the failure one. *)
Definition keepsPolling (desired : string) (r : eks.DescribeClusterOutput.t * option error)
  : bool :=
  match snd r with
  | Some _ => negb (IsDeleted (snd r))
  | None =>
      match eks.DescribeClusterOutput.Cluster (fst r) with
      | None => true
      | Some cluster =>
          negb (aws.StringValue (eks.Cluster.Status cluster) =? desired)%string &&
          negb (aws.StringValue (eks.Cluster.Status cluster) =? eks.ClusterStatusFailed)%string
      end
  end.

Definition keepsPollingUpdate (desired : string)
    (r : eks.DescribeUpdateOutput.t * option error) : bool :=
  match snd r with
  | Some _ => negb (updateNotExists (snd r))
  | None =>
      match eks.DescribeUpdateOutput.Update (fst r) with
      | None => true
      | Some update =>
          negb (aws.StringValue (eks.Update.Status update) =? desired)%string &&
          negb (aws.StringValue (eks.Update.Status update) =? eks.UpdateStatusCancelled)%string &&
          negb (aws.StringValue (eks.Update.Status update) =? eks.UpdateStatusFailed)%string
      end
  end.

(** An update status that ends nothing. *)
Definition pendingUpdate (desired : string) (update : eks.Update.t) : Prop :=
  aws.StringValue (eks.Update.Status update) <> desired /\
  aws.StringValue (eks.Update.Status update) <> eks.UpdateStatusCancelled /\
  aws.StringValue (eks.Update.Status update) <> eks.UpdateStatusFailed.

(** An iteration in which nothing ends the run. *)
Definition quiet {Out} (goesOn : Out * option error -> bool) (it : Iteration Out) : Prop :=
  ctxErr it = None /\ selected it = TimeAfter /\ selectedInitial it = TimeAfter /\
  goesOn (response it) = true.

End Outcomes.

(** ** Sample values for the concrete runs *)

Module Sample.
Definition DELETEDORNOTEXIST : string := "DELETED/NOT-EXIST".
Definition GoStringC (_ : eks.DescribeClusterOutput.t) : string := "{}".
Definition GoStringU (_ : eks.DescribeUpdateOutput.t) : string := "{}".

Definition cluster (status : string) : eks.Cluster.t :=
  {| eks.Cluster.Name := Some "c"; eks.Cluster.Status := Some status |}.
Definition update (status : string) : eks.Update.t :=
  {| eks.Update.Id := Some "u"; eks.Update.Status := Some status;
     eks.Update.Type_ := Some "VersionUpdate" |}.

Definition gotCluster (status : string) : eks.DescribeClusterOutput.t * option error :=
  ({| eks.DescribeClusterOutput.Cluster := Some (cluster status) |}, None).
Definition gotUpdate (status : string) : eks.DescribeUpdateOutput.t * option error :=
  ({| eks.DescribeUpdateOutput.Update := Some (update status) |}, None).
Definition failedC (e : error) : eks.DescribeClusterOutput.t * option error :=
  ({| eks.DescribeClusterOutput.Cluster := None |}, Some e).
Definition failedU (e : error) : eks.DescribeUpdateOutput.t * option error :=
  ({| eks.DescribeUpdateOutput.Update := None |}, Some e).

Definition clusterNotFound : error :=
  ErrAws "ResourceNotFoundException" "No cluster found for name: c."
         "ResourceNotFoundException: No cluster found for name: c.".
Definition updateNotFound : error :=
  ErrAws "ResourceNotFoundException" "No update found for ID: u"
         "ResourceNotFoundException: No update found for ID: u".
Definition throttled : error :=
  ErrAws "ThrottlingException" "Rate exceeded" "ThrottlingException: Rate exceeded".

(** Events: neither field, a snapshot alone, an error alone. *)
Definition none : ClusterStatus.t :=
  {| ClusterStatus.Cluster := None; ClusterStatus.Error := None |}.
Definition snapshot (status : string) : ClusterStatus.t :=
  {| ClusterStatus.Cluster := Some (cluster status); ClusterStatus.Error := None |}.
Definition failure (e : error) : ClusterStatus.t :=
  {| ClusterStatus.Cluster := None; ClusterStatus.Error := Some e |}.

Definition Poll := Poll DELETEDORNOTEXIST GoStringC.
Definition PollUpdate := PollUpdate GoStringU.

(** Statuses CREATING, CREATING, ACTIVE, no signal. *)
Definition creating_creating_active : list (Iteration eks.DescribeClusterOutput.t) :=
  [answers (gotCluster "CREATING"); answers (gotCluster "CREATING");
   answers (gotCluster "ACTIVE")].

(** The context's Done fires during the initial wait. *)
Definition cancelled_in_initial_wait : list (Iteration eks.DescribeClusterOutput.t) :=
  [{| ctxErr := None; selected := TimeAfter; response := gotCluster "CREATING";
      selectedInitial := CtxDone DeadlineExceeded |}].

(** The stop channel fires at the head of the second pass. *)
Definition stopped_in_second_pass : list (Iteration eks.DescribeUpdateOutput.t) :=
  [answers (gotUpdate "InProgress");
   {| ctxErr := None; selected := Stopc; response := gotUpdate "InProgress";
      selectedInitial := TimeAfter |}].

(** The context has expired when the guard of the second pass reads it. *)
Definition expired_at_guard : list (Iteration eks.DescribeClusterOutput.t) :=
  [answers (failedC throttled);
   {| ctxErr := Some Canceled; selected := TimeAfter; response := gotCluster "ACTIVE";
      selectedInitial := TimeAfter |}].
End Sample.

(** ** Proof tools *)

(** The classifiers stay folded in the proofs on the loops. *)
Arguments IsDeleted : simpl never.
Arguments updateNotExists : simpl never.

(** Case analysis along the branches of a loop body. *)
Ltac body_cases H :=
  unfold Poll_body, PollUpdate_body, callQueryFunc in H;
  repeat match type of H with
         | context [match ?x with _ => _ end] => destruct x eqn:?
         end;
  inversion H; subst; clear H.

Ltac eqb_props :=
  repeat match goal with
         | H : (_ =? _)%string = true |- _ => apply String.eqb_eq in H
         | H : (_ =? _)%string = false |- _ => apply String.eqb_neq in H
         end.

Ltac retry_case :=
  simpl; unfold retry_tail, update_retry_tail, starts_open, retried in *; simpl;
  repeat split; intros;
  try discriminate;
  try match goal with
      | H : negb ?b = true, E : ?b = true |- _ => rewrite E in H; discriminate H
      | H : match ?a with Some _ => false | None => true end = true, E : ?a = Some _ |- _ =>
          rewrite E in H; discriminate H
      end;
  try (eexists; split; [reflexivity|intros; (discriminate || auto)]).

(** Case analysis along the branches of a loop body in the goal. *)
Ltac body_eval :=
  unfold Poll_body, PollUpdate_body, callQueryFunc;
  repeat match goal with
         | |- context [match ?x with _ => _ end] => destruct x eqn:?
         end;
  simpl.

Ltac timers_case next :=
  simpl in *; unfold starts_waiting in *;
  repeat split; intros; try discriminate;
  repeat match goal with
         | H : _ = _ :: _ \/ _ |- _ => destruct H as [H|[? H]]
         | H : _ = [] \/ _ |- _ => destruct H as [H|[? H]]
         end;
  try congruence;
  rewrite ?next in *;
  repeat match goal with
         | H : ?l = _ |- context [?l] => rewrite H
         end;
  auto.

Ltac report_case :=
  simpl; unfold report_tail, update_report_tail; repeat split; try assumption;
  do 2 eexists; (split; [reflexivity|]); simpl;
  first [solve [auto 8]|split; [congruence|intros; congruence || reflexivity]].

Ltac final_case :=
  solve [eauto 6
        |eexists; split; [reflexivity|split; [assumption|congruence]]
        |do 2 eexists;
         split; [reflexivity|split; [assumption|split; [auto|congruence]]]].

Ltac pick_final :=
  unfold final_event, update_final_event;
  repeat (first [solve [left; final_case]|right]); final_case.

Ltac close_case :=
  simpl; unfold close_tail, update_close_tail, starts_open in *;
  repeat split; intros; try discriminate; try assumption;
  try (eexists; split; [reflexivity|pick_final]).

Ltac callback_case :=
  simpl; unfold callback_tail, update_callback_tail, starts_quiet in *;
  repeat split; intros;
  repeat match goal with
         | H : QueryFunc _ :: _ = QueryFunc _ :: _ |- _ => inversion H; subst; clear H
         | H : Some _ = Some _ |- _ => inversion H; subst; clear H
         | H : Send _ = Send _ |- _ => inversion H; subst; clear H
         end;
  try congruence;
  try (eexists; reflexivity);
  try (eexists; split; [reflexivity|repeat split; assumption]).

(** * Properties *)

(** ** Strings *)

Lemma HasPrefix_spec s : forall prefix,
  strings.HasPrefix s prefix = true <-> exists rest, s = (prefix ++ rest)%string.
Proof.
  induction s as [|c s IH]; intros [|p q]; simpl.
  - split; [exists EmptyString|]; reflexivity.
  - split; [discriminate|intros [r Hr]; discriminate].
  - split; [intros _; exists (String c s)|]; reflexivity.
  - destruct (Ascii.eqb_spec c p) as [->|Hne].
    + rewrite IH. split; intros [r Hr]; exists r; congruence.
    + split; [discriminate|intros [r Hr]; congruence].
Qed.

Lemma Contains_spec s : forall substr,
  strings.Contains s substr = true <->
  exists before after, s = (before ++ substr ++ after)%string.
Proof.
  induction s as [|c s IH]; intros sub; cbn [strings.Contains];
    rewrite orb_true_iff, HasPrefix_spec.
  - split.
    + intros [[r Hr]|Hf]; [exists EmptyString, r; exact Hr|discriminate].
    + intros [[|b bs] [a Ha]]; [left; exists a; exact Ha|discriminate].
  - rewrite IH. split.
    + intros [[r Hr]|[b [a Ha]]].
      * exists EmptyString, r; exact Hr.
      * exists (String c b), a; simpl; congruence.
    + intros [[|b bs] [a Ha]].
      * left; exists a; exact Ha.
      * right; exists bs, a; simpl in Ha; congruence.
Qed.

(** ** The classifiers *)

Lemma classifier_spec prefix fallback e :
  match as_awserr e with
  | Some (code, message) =>
      if (code =? "ResourceNotFoundException")%string && strings.HasPrefix message prefix
      then true
      else strings.Contains (Error_text e) fallback
  | None => strings.Contains (Error_text e) fallback
  end = true <-> not_found prefix fallback e.
Proof.
  unfold not_found. destruct (as_awserr e) as [[code message]|] eqn:Has.
  - destruct (String.eqb_spec code "ResourceNotFoundException") as [->|Hcode]; simpl.
    + destruct (strings.HasPrefix message prefix) eqn:Hp.
      * apply HasPrefix_spec in Hp as [rest Hrest].
        split; [intros _; left; exists message, rest; auto|reflexivity].
      * rewrite Contains_spec. split; [right; assumption|].
        intros [(m & rest & Hm & Hrest)|Hc]; [|assumption].
        injection Hm as <-.
        assert (strings.HasPrefix message prefix = true) as Habs
          by (apply HasPrefix_spec; exists rest; assumption).
        congruence.
    + rewrite Contains_spec. split; [right; assumption|].
      intros [(m & rest & Hm & _)|Hc]; [congruence|assumption].
  - rewrite Contains_spec. split; [right; assumption|].
    intros [(m & rest & Hm & _)|Hc]; [discriminate|assumption].
Qed.

(** C7. [IsDeleted err] is true exactly when [err] is non-nil and is either a
    structured AWS error with code ResourceNotFoundException whose message
    starts with "No cluster found for", or has "No cluster found for name: "
    somewhere in its text; [updateNotExists] is the same with the prefix
    "No update found for" and the fallback "No update found"; both are false
    on the nil error. *)
Theorem classifiers_characterised :
  (forall err, IsDeleted err = true <->
     exists e, err = Some e /\
       not_found "No cluster found for" "No cluster found for name: " e) /\
  (forall err, updateNotExists err = true <->
     exists e, err = Some e /\ not_found "No update found for" "No update found" e) /\
  IsDeleted None = false /\ updateNotExists None = false.
Proof.
  repeat split; try reflexivity.
  - destruct err as [e|]; [|discriminate]. intros H. exists e. split; [reflexivity|].
    apply classifier_spec. exact H.
  - intros (e & -> & H). apply classifier_spec in H. exact H.
  - destruct err as [e|]; [|discriminate]. intros H. exists e. split; [reflexivity|].
    apply classifier_spec. exact H.
  - intros (e & -> & H). apply classifier_spec in H. exact H.
Qed.

(** ** Traces *)

Section TraceFacts.

Context {Out Ev : Type}.
Implicit Types (tr pre post : list (action Out Ev)).

Lemma ForallTails_split P tr :
  ForallTails P tr -> forall pre x post, tr = pre ++ x :: post -> P x post.
Proof.
  intros H pre; revert tr H.
  induction pre as [|y pre IH]; intros tr H x post ->; simpl in H.
  - apply H.
  - eapply IH; [apply H|reflexivity].
Qed.

Lemma events_app tr tr' : events (tr ++ tr') = events tr ++ events tr'.
Proof.
  induction tr as [|[] tr IH]; simpl; rewrite ?IH; reflexivity.
Qed.

Lemma timers_app tr tr' : timers (tr ++ tr') = timers tr ++ timers tr'.
Proof.
  induction tr as [|[] tr IH]; simpl; rewrite ?IH; reflexivity.
Qed.

(** A trace that is closed at its end and nowhere else. *)
Lemma closed_last_returned tr body (returned : bool) :
  tr = body ++ (if returned then [Close] else []) ->
  ~ In Close body -> In Close tr -> returned = true.
Proof.
  intros -> Hbody Hin. destruct returned; [reflexivity|].
  rewrite app_nil_r in Hin. contradiction.
Qed.

End TraceFacts.

(** ** The loops *)

Section Loops.

Variable DEL : string.
Variable GoC : eks.DescribeClusterOutput.t -> string.
Variable GoU : eks.DescribeUpdateOutput.t -> string.

(** Reasoning on a run of [Poll]'s loop pass by pass. *)
Lemma Poll_loop_rule (Q : list ClusterAction -> bool -> Prop) desired iw pi ret :
  Q [] false ->
  (forall e,
      Q [Send {| ClusterStatus.Cluster := None; ClusterStatus.Error := Some (ErrCtx e) |};
         Close] true) ->
  (forall st it done,
      Poll_body DEL GoC desired iw pi ret st it = (done, None) -> Q done true) ->
  (forall st it done st' rest r,
      Poll_body DEL GoC desired iw pi ret st it = (done, Some st') ->
      Q rest r -> Q (done ++ rest) r) ->
  forall script st,
    Q (fst (Poll_loop DEL GoC desired iw pi ret st script))
      (snd (Poll_loop DEL GoC desired iw pi ret st script)).
Proof.
  intros Hnil Hguard Hret Hnext.
  induction script as [|it script IH]; intros st; simpl; [exact Hnil|].
  destruct (ctxErr it) as [e|]; [apply Hguard|].
  destruct (Poll_body DEL GoC desired iw pi ret st it) as [done [st'|]] eqn:Hbody.
  - specialize (IH st').
    destruct (Poll_loop DEL GoC desired iw pi ret st' script) as [rest r].
    simpl in *. eapply Hnext; eassumption.
  - simpl. eapply Hret; eassumption.
Qed.

Lemma PollUpdate_loop_rule (Q : list UpdateAction -> bool -> Prop) desired iw pi ret :
  Q [] false ->
  (forall e,
      Q [Send {| UpdateStatus.Update := None; UpdateStatus.Error := Some (ErrCtx e) |};
         Close] true) ->
  (forall st it done,
      PollUpdate_body GoU desired iw pi ret st it = (done, None) -> Q done true) ->
  (forall st it done st' rest r,
      PollUpdate_body GoU desired iw pi ret st it = (done, Some st') ->
      Q rest r -> Q (done ++ rest) r) ->
  forall script st,
    Q (fst (PollUpdate_loop GoU desired iw pi ret st script))
      (snd (PollUpdate_loop GoU desired iw pi ret st script)).
Proof.
  intros Hnil Hguard Hret Hnext.
  induction script as [|it script IH]; intros st; simpl; [exact Hnil|].
  destruct (ctxErr it) as [e|]; [apply Hguard|].
  destruct (PollUpdate_body GoU desired iw pi ret st it) as [done [st'|]] eqn:Hbody.
  - specialize (IH st').
    destruct (PollUpdate_loop GoU desired iw pi ret st' script) as [rest r].
    simpl in *. eapply Hnext; eassumption.
  - simpl. eapply Hret; eassumption.
Qed.

Lemma closes_last_ret {Out Ev} (done : list (action Out Ev)) :
  done = removelast done ++ [Close] -> ~ In Close (removelast done) ->
  closes_last done true.
Proof. intros H1 H2. exists (removelast done). split; assumption. Qed.

Lemma closes_last_next {Out Ev} (done rest : list (action Out Ev)) r :
  ~ In Close done -> closes_last rest r -> closes_last (done ++ rest) r.
Proof.
  intros Hd (body & -> & Hb). exists (done ++ body). split.
  - apply app_assoc.
  - intros Hin. apply in_app_or in Hin as [Hin|Hin]; contradiction.
Qed.

Lemma Poll_loop_closes_last desired iw pi ret script st :
  closes_last (fst (Poll_loop DEL GoC desired iw pi ret st script))
              (snd (Poll_loop DEL GoC desired iw pi ret st script)).
Proof.
  apply Poll_loop_rule.
  - exists []. split; [reflexivity|intros []].
  - intros e. apply closes_last_ret; simpl; [reflexivity|intuition discriminate].
  - intros st' it done H. body_cases H;
      (apply closes_last_ret; simpl; [reflexivity|intuition discriminate]).
  - intros st' it done st'' rest r H Hrest. apply closes_last_next; [|exact Hrest].
    body_cases H; simpl; intuition discriminate.
Qed.

Lemma PollUpdate_loop_closes_last desired iw pi ret script st :
  closes_last (fst (PollUpdate_loop GoU desired iw pi ret st script))
              (snd (PollUpdate_loop GoU desired iw pi ret st script)).
Proof.
  apply PollUpdate_loop_rule.
  - exists []. split; [reflexivity|intros []].
  - intros e. apply closes_last_ret; simpl; [reflexivity|intuition discriminate].
  - intros st' it done H. body_cases H;
      (apply closes_last_ret; simpl; [reflexivity|intuition discriminate]).
  - intros st' it done st'' rest r H Hrest. apply closes_last_next; [|exact Hrest].
    body_cases H; simpl; intuition discriminate.
Qed.




Lemma Poll_returned_of_close desired iw pi ret script st :
  In Close (fst (Poll_loop DEL GoC desired iw pi ret st script)) ->
  snd (Poll_loop DEL GoC desired iw pi ret st script) = true.
Proof.
  destruct (Poll_loop_closes_last desired iw pi ret script st) as (body & Htr & Hbody).
  eapply closed_last_returned; eassumption.
Qed.

Lemma PollUpdate_returned_of_close desired iw pi ret script st :
  In Close (fst (PollUpdate_loop GoU desired iw pi ret st script)) ->
  snd (PollUpdate_loop GoU desired iw pi ret st script) = true.
Proof.
  destruct (PollUpdate_loop_closes_last desired iw pi ret script st) as (body & Htr & Hbody).
  eapply closed_last_returned; eassumption.
Qed.

Lemma Poll_loop_absence desired iw pi ret script st :
  ForallTails (absence_tail DEL desired)
    (fst (Poll_loop DEL GoC desired iw pi ret st script)).
Proof.
  apply (Poll_loop_rule (fun tr _ => ForallTails (absence_tail DEL desired) tr)).
  - exact I.
  - intros e; simpl; tauto.
  - intros st' it done H. body_cases H; simpl; repeat split; intros;
      repeat match goal with
             | E : ?b = _ |- context [if ?b then _ else _] => rewrite E
             end; congruence.
  - intros st' it done st'' rest r H Hrest.
    body_cases H; simpl; repeat split; intros; congruence || assumption.
Qed.

(** C3. On every run of [Poll], once a Describe call fails with an error
    that [IsDeleted] takes for absence, the goroutine sends one last event
    and closes, asking nothing more: the event has neither cluster nor
    error when the desired status is the deleted-or-not-exist one, and
    carries the query error otherwise. *)
Theorem Poll_on_absence desired iw pi opts script pre output e post :
  fst (Poll DEL GoC desired iw pi opts script) = pre ++ Describe output (Some e) :: post ->
  IsDeleted (Some e) = true ->
  post =
    [Send {| ClusterStatus.Cluster := None;
             ClusterStatus.Error := if (desired =? DEL)%string then None else Some e |};
     Close] /\
  snd (Poll DEL GoC desired iw pi opts script) = true.
Proof.
  unfold Poll. intros Htr Habs.
  assert (Hpost := ForallTails_split _ _
                     (Poll_loop_absence desired iw pi _ script _) _ _ _ Htr Habs).
  split; [exact Hpost|].
  apply Poll_returned_of_close. rewrite Htr, Hpost.
  apply in_or_app; right; simpl; auto.
Qed.

Lemma PollUpdate_loop_absence desired iw pi ret script st :
  ForallTails update_absence_tail
    (fst (PollUpdate_loop GoU desired iw pi ret st script)).
Proof.
  apply (PollUpdate_loop_rule (fun tr _ => ForallTails update_absence_tail tr)).
  - exact I.
  - intros e; simpl; tauto.
  - intros st' it done H. body_cases H; simpl; repeat split; intros; congruence.
  - intros st' it done st'' rest r H Hrest.
    body_cases H; simpl; repeat split; intros; congruence || assumption.
Qed.

(** C10. [PollUpdate] has no success on absence: whatever the desired
    update status, once a Describe call fails with an error that
    [updateNotExists] takes for absence, the goroutine sends that error,
    closes and returns. *)
Theorem PollUpdate_on_absence desired iw pi opts script pre output e post :
  fst (PollUpdate GoU desired iw pi opts script) = pre ++ Describe output (Some e) :: post ->
  updateNotExists (Some e) = true ->
  post = [Send {| UpdateStatus.Update := None; UpdateStatus.Error := Some e |}; Close] /\
  snd (PollUpdate GoU desired iw pi opts script) = true.
Proof.
  unfold PollUpdate. intros Htr Habs.
  assert (Hpost := ForallTails_split _ _
                     (PollUpdate_loop_absence desired iw pi _ script _) _ _ _ Htr Habs).
  split; [exact Hpost|].
  apply PollUpdate_returned_of_close. rewrite Htr, Hpost.
  apply in_or_app; right; simpl; auto.
Qed.

Lemma Poll_loop_desired desired iw pi ret script st :
  ForallTails (desired_tail desired)
    (fst (Poll_loop DEL GoC desired iw pi ret st script)).
Proof.
  apply (Poll_loop_rule (fun tr _ => ForallTails (desired_tail desired) tr)).
  - exact I.
  - intros e; simpl; tauto.
  - intros st' it done H. body_cases H; eqb_props; simpl; repeat split; intros;
      congruence.
  - intros st' it done st'' rest r H Hrest.
    body_cases H; eqb_props; simpl; repeat split; intros; congruence || assumption.
Qed.

Lemma PollUpdate_loop_desired desired iw pi ret script st :
  ForallTails (update_desired_tail desired)
    (fst (PollUpdate_loop GoU desired iw pi ret st script)).
Proof.
  apply (PollUpdate_loop_rule (fun tr _ => ForallTails (update_desired_tail desired) tr)).
  - exact I.
  - intros e; simpl; tauto.
  - intros st' it done H. body_cases H; eqb_props; simpl; repeat split; intros;
      congruence.
  - intros st' it done st'' rest r H Hrest.
    body_cases H; eqb_props; simpl; repeat split; intros; congruence || assumption.
Qed.

(** C9. When the desired status is itself one of the hard-coded failure
    statuses (FAILED for [Poll]; Cancelled or Failed for [PollUpdate]), a
    snapshot with that status is a success: the goroutine sends it with a
    nil error, closes and returns. *)
Theorem desired_status_before_failure_status :
  (forall iw pi opts script pre output cluster post,
      let run := Poll DEL GoC eks.ClusterStatusFailed iw pi opts script in
      fst run = pre ++ Describe output None :: post ->
      eks.DescribeClusterOutput.Cluster output = Some cluster ->
      aws.StringValue (eks.Cluster.Status cluster) = eks.ClusterStatusFailed ->
      post =
        [Send {| ClusterStatus.Cluster := Some cluster; ClusterStatus.Error := None |};
         Close] /\
      snd run = true) /\
  (forall desired iw pi opts script pre output update post,
      let run := PollUpdate GoU desired iw pi opts script in
      desired = eks.UpdateStatusCancelled \/ desired = eks.UpdateStatusFailed ->
      fst run = pre ++ Describe output None :: post ->
      eks.DescribeUpdateOutput.Update output = Some update ->
      aws.StringValue (eks.Update.Status update) = desired ->
      post =
        [Send {| UpdateStatus.Update := Some update; UpdateStatus.Error := None |};
         Close] /\
      snd run = true).
Proof.
  split.
  - intros iw pi opts script pre output cluster post run Htr Hc Hs. subst run.
    unfold Poll in *.
    assert (Hpost := ForallTails_split _ _
                       (Poll_loop_desired _ iw pi _ script _) _ _ _ Htr _ Hc Hs).
    split; [exact Hpost|].
    apply Poll_returned_of_close. rewrite Htr, Hpost.
    apply in_or_app; right; simpl; auto.
  - intros desired iw pi opts script pre output update post run _ Htr Hu Hs. subst run.
    unfold PollUpdate in *.
    assert (Hpost := ForallTails_split _ _
                       (PollUpdate_loop_desired desired iw pi _ script _) _ _ _ Htr _ Hu Hs).
    split; [exact Hpost|].
    apply PollUpdate_returned_of_close. rewrite Htr, Hpost.
    apply in_or_app; right; simpl; auto.
Qed.




Lemma Poll_loop_event_shape desired iw pi ret script st :
  ForallTails (cluster_event_shape DEL desired)
    (fst (Poll_loop DEL GoC desired iw pi ret st script)).
Proof.
  apply (Poll_loop_rule (fun tr _ => ForallTails (cluster_event_shape DEL desired) tr)).
  - exact I.
  - intros e; simpl; tauto.
  - intros st' it done H. body_cases H; eqb_props; simpl; repeat split; auto.
    right. split; [reflexivity|]. right. eexists. repeat split; congruence.
  - intros st' it done st'' rest r H Hrest.
    body_cases H; simpl; repeat split; auto.
Qed.

Lemma PollUpdate_loop_event_shape desired iw pi ret script st :
  ForallTails (update_event_shape desired)
    (fst (PollUpdate_loop GoU desired iw pi ret st script)).
Proof.
  apply (PollUpdate_loop_rule (fun tr _ => ForallTails (update_event_shape desired) tr)).
  - exact I.
  - intros e; simpl; tauto.
  - intros st' it done H. body_cases H; eqb_props; simpl; repeat split; auto;
      right; (split; [reflexivity|]); eexists _, _; repeat split; eauto; congruence.
  - intros st' it done st'' rest r H Hrest.
    body_cases H; simpl; repeat split; auto.
Qed.

(** C4, amended.  Every event sent has exactly one of its two fields set,
    but for two events that end a run: the event of [Poll] with neither
    cluster nor error, sent when the desired status is the
    deleted-or-not-exist one; and the event that carries both the snapshot
    and an error naming its status, sent when that status is a hard-coded
    failure status other than the desired one. *)
Theorem events_one_field_but_last :
  (forall desired iw pi opts script pre ev post,
      fst (Poll DEL GoC desired iw pi opts script) = pre ++ Send ev :: post ->
      one_field (ClusterStatus.Cluster ev) (ClusterStatus.Error ev) = true \/
      (post = [Close] /\
       ((ev = {| ClusterStatus.Cluster := None; ClusterStatus.Error := None |} /\
         desired = DEL) \/
        (exists cluster,
            ev = {| ClusterStatus.Cluster := Some cluster;
                    ClusterStatus.Error :=
                      Some (errClusterStatus eks.ClusterStatusFailed) |} /\
            aws.StringValue (eks.Cluster.Status cluster) = eks.ClusterStatusFailed /\
            desired <> eks.ClusterStatusFailed)))) /\
  (forall desired iw pi opts script pre ev post,
      fst (PollUpdate GoU desired iw pi opts script) = pre ++ Send ev :: post ->
      one_field (UpdateStatus.Update ev) (UpdateStatus.Error ev) = true \/
      (post = [Close] /\
       exists update status,
         ev = {| UpdateStatus.Update := Some update;
                 UpdateStatus.Error := Some (errUpdateStatus status) |} /\
         aws.StringValue (eks.Update.Status update) = status /\
         (status = eks.UpdateStatusCancelled \/ status = eks.UpdateStatusFailed) /\
         desired <> status)).
Proof.
  split; intros desired iw pi opts script pre ev post Htr.
  - exact (ForallTails_split _ _
             (Poll_loop_event_shape desired iw pi _ script _) _ _ _ Htr).
  - exact (ForallTails_split _ _
             (PollUpdate_loop_event_shape desired iw pi _ script _) _ _ _ Htr).
Qed.

End Loops.

(** ** Retried responses *)

Section Retries.

Variable DEL : string.
Variable GoC : eks.DescribeClusterOutput.t -> string.
Variable GoU : eks.DescribeUpdateOutput.t -> string.

Lemma nextWaitDur_idem w pi : nextWaitDur (nextWaitDur w pi) pi = nextWaitDur w pi.
Proof.
  unfold nextWaitDur. destruct (w =? 0) eqn:Hw; [|rewrite Hw; reflexivity].
  destruct (pi =? 0); reflexivity.
Qed.

Lemma waits_next w pi n : waits (nextWaitDur w pi) pi n = repeat (nextWaitDur w pi) n.
Proof.
  destruct n as [|n]; simpl; [reflexivity|]. rewrite nextWaitDur_idem. reflexivity.
Qed.

Lemma Poll_body_retried desired iw pi ret st r :
  retried IsDeleted eks.DescribeClusterOutput.Cluster r = true ->
  Poll_body DEL GoC desired iw pi ret st (answers r) =
  ([RecvTimer (waitDur st); Describe (fst r) (snd r); Send (clusterRetryEvent GoC r)],
   Some {| waitDur := nextWaitDur (waitDur st) pi; first := first st |}).
Proof.
  unfold retried, Poll_body, clusterRetryEvent. destruct r as [output [e|]]; simpl.
  - intros H. apply negb_true_iff in H. rewrite H. reflexivity.
  - destruct (eks.DescribeClusterOutput.Cluster output); [discriminate|reflexivity].
Qed.

Lemma PollUpdate_body_retried desired iw pi ret st r :
  retried updateNotExists eks.DescribeUpdateOutput.Update r = true ->
  PollUpdate_body GoU desired iw pi ret st (answers r) =
  ([RecvTimer (waitDur st); Describe (fst r) (snd r); Send (updateRetryEvent GoU r)],
   Some {| waitDur := nextWaitDur (waitDur st) pi; first := first st |}).
Proof.
  unfold retried, PollUpdate_body, updateRetryEvent. destruct r as [output [e|]]; simpl.
  - intros H. apply negb_true_iff in H. rewrite H. reflexivity.
  - destruct (eks.DescribeUpdateOutput.Update output); [discriminate|reflexivity].
Qed.

Lemma Poll_body_desired desired iw pi ret st output cluster :
  eks.DescribeClusterOutput.Cluster output = Some cluster ->
  aws.StringValue (eks.Cluster.Status cluster) = desired ->
  Poll_body DEL GoC desired iw pi ret st (answers (output, None)) =
  ([RecvTimer (waitDur st); Describe output None;
    Send {| ClusterStatus.Cluster := Some cluster; ClusterStatus.Error := None |};
    Close], None).
Proof.
  intros Hc Hs. unfold Poll_body; simpl. rewrite Hc, Hs, String.eqb_refl. reflexivity.
Qed.

Lemma PollUpdate_body_desired desired iw pi ret st output update :
  eks.DescribeUpdateOutput.Update output = Some update ->
  aws.StringValue (eks.Update.Status update) = desired ->
  PollUpdate_body GoU desired iw pi ret st (answers (output, None)) =
  ([RecvTimer (waitDur st); Describe output None;
    Send {| UpdateStatus.Update := Some update; UpdateStatus.Error := None |};
    Close], None).
Proof.
  intros Hc Hs. unfold PollUpdate_body; simpl. rewrite Hc, Hs, String.eqb_refl. reflexivity.
Qed.

Lemma afterRetries_cons {A} pi st (r : A) rs :
  afterRetries pi {| waitDur := nextWaitDur (waitDur st) pi; first := first st |} rs =
  afterRetries pi st (r :: rs).
Proof.
  destruct rs; simpl; [reflexivity|]. rewrite nextWaitDur_idem. reflexivity.
Qed.

Lemma Poll_loop_retries desired iw pi ret rs : forall st,
  Forall (fun r => retried IsDeleted eks.DescribeClusterOutput.Cluster r = true) rs ->
  exists tr,
    (forall script,
        Poll_loop DEL GoC desired iw pi ret st (map answers rs ++ script) =
        (tr ++ fst (Poll_loop DEL GoC desired iw pi ret (afterRetries pi st rs) script),
         snd (Poll_loop DEL GoC desired iw pi ret (afterRetries pi st rs) script))) /\
    events tr = map (clusterRetryEvent GoC) rs /\
    timers tr = waits (waitDur st) pi (length rs).
Proof.
  induction rs as [|r rs IH]; intros st Hrs.
  - exists []. repeat split. intros script. simpl.
    destruct (Poll_loop DEL GoC desired iw pi ret st script); reflexivity.
  - inversion Hrs as [|? ? Hr Hrs']; subst.
    destruct (IH {| waitDur := nextWaitDur (waitDur st) pi; first := first st |} Hrs')
      as (tr & Hrun & Hev & Htm).
    rewrite afterRetries_cons with (r := r) in Hrun.
    exists ([RecvTimer (waitDur st); Describe (fst r) (snd r); Send (clusterRetryEvent GoC r)] ++ tr).
    repeat split.
    + intros script. cbn [map app Poll_loop].
      change (ctxErr (answers r)) with (@None CtxError). cbv iota.
      rewrite Poll_body_retried by exact Hr. rewrite Hrun. reflexivity.
    + simpl. rewrite Hev. reflexivity.
    + simpl. rewrite Htm. simpl. rewrite waits_next. reflexivity.
Qed.

Lemma PollUpdate_loop_retries desired iw pi ret rs : forall st,
  Forall (fun r => retried updateNotExists eks.DescribeUpdateOutput.Update r = true) rs ->
  exists tr,
    (forall script,
        PollUpdate_loop GoU desired iw pi ret st (map answers rs ++ script) =
        (tr ++ fst (PollUpdate_loop GoU desired iw pi ret (afterRetries pi st rs) script),
         snd (PollUpdate_loop GoU desired iw pi ret (afterRetries pi st rs) script))) /\
    events tr = map (updateRetryEvent GoU) rs /\
    timers tr = waits (waitDur st) pi (length rs).
Proof.
  induction rs as [|r rs IH]; intros st Hrs.
  - exists []. repeat split. intros script. simpl.
    destruct (PollUpdate_loop GoU desired iw pi ret st script); reflexivity.
  - inversion Hrs as [|? ? Hr Hrs']; subst.
    destruct (IH {| waitDur := nextWaitDur (waitDur st) pi; first := first st |} Hrs')
      as (tr & Hrun & Hev & Htm).
    rewrite afterRetries_cons with (r := r) in Hrun.
    exists ([RecvTimer (waitDur st); Describe (fst r) (snd r); Send (updateRetryEvent GoU r)] ++ tr).
    repeat split.
    + intros script. cbn [map app PollUpdate_loop].
      change (ctxErr (answers r)) with (@None CtxError). cbv iota.
      rewrite PollUpdate_body_retried by exact Hr. rewrite Hrun. reflexivity.
    + simpl. rewrite Hev. reflexivity.
    + simpl. rewrite Htm. simpl. rewrite waits_next. reflexivity.
Qed.

Lemma Poll_loop_desired_pass desired iw pi ret st output cluster :
  eks.DescribeClusterOutput.Cluster output = Some cluster ->
  aws.StringValue (eks.Cluster.Status cluster) = desired ->
  Poll_loop DEL GoC desired iw pi ret st [answers (output, None)] =
  ([RecvTimer (waitDur st); Describe output None;
    Send {| ClusterStatus.Cluster := Some cluster; ClusterStatus.Error := None |};
    Close], true).
Proof.
  intros Hc Hs. cbn [Poll_loop]. change (ctxErr (answers (output, None))) with (@None CtxError).
  cbv iota. rewrite (Poll_body_desired _ _ _ _ _ _ _ Hc Hs). reflexivity.
Qed.

Lemma PollUpdate_loop_desired_pass desired iw pi ret st output update :
  eks.DescribeUpdateOutput.Update output = Some update ->
  aws.StringValue (eks.Update.Status update) = desired ->
  PollUpdate_loop GoU desired iw pi ret st [answers (output, None)] =
  ([RecvTimer (waitDur st); Describe output None;
    Send {| UpdateStatus.Update := Some update; UpdateStatus.Error := None |};
    Close], true).
Proof.
  intros Hc Hs. cbn [PollUpdate_loop].
  change (ctxErr (answers (output, None))) with (@None CtxError).
  cbv iota. rewrite (PollUpdate_body_desired _ _ _ _ _ _ _ Hc Hs). reflexivity.
Qed.

Lemma Poll_loop_retry_tail desired iw pi ret script st :
  ForallTails (retry_tail GoC) (fst (Poll_loop DEL GoC desired iw pi ret st script)) /\
  starts_open (fst (Poll_loop DEL GoC desired iw pi ret st script)).
Proof.
  apply (Poll_loop_rule DEL GoC
           (fun tr _ => ForallTails (retry_tail GoC) tr /\ starts_open tr)).
  - split; [exact I|]. intros post; discriminate.
  - intros e. retry_case.
  - intros st' it done H. body_cases H; retry_case.
  - intros st' it done st'' rest r H [Hrest Hopen].
    body_cases H; retry_case; assumption.
Qed.

Lemma PollUpdate_loop_retry_tail desired iw pi ret script st :
  ForallTails (update_retry_tail GoU) (fst (PollUpdate_loop GoU desired iw pi ret st script)) /\
  starts_open (fst (PollUpdate_loop GoU desired iw pi ret st script)).
Proof.
  apply (PollUpdate_loop_rule GoU
           (fun tr _ => ForallTails (update_retry_tail GoU) tr /\ starts_open tr)).
  - split; [exact I|]. intros post; discriminate.
  - intros e. retry_case.
  - intros st' it done H. body_cases H; retry_case.
  - intros st' it done st'' rest r H [Hrest Hopen].
    body_cases H; retry_case; assumption.
Qed.

(** C5. A Describe error that is not taken for absence, and a response
    with neither error nor payload, are each sent as an error event and
    never end the run: wherever one comes in a run, the error event is what
    the goroutine sends next, and closing the channel is not what it does
    after that.  After any number of them in a row the goroutine has
    sent one error event per response, in order, has not closed, and has
    waited nothing before the first query and the poll interval before
    each later one; when the desired status comes next, the snapshot
    follows with a nil error and only then the channel is closed.  With
    one such response this is the run [transient error, desired status]
    and its two events. *)
Theorem retried_responses_keep_the_run_going :
  (forall desired iw pi opts rs,
      Forall (fun r => retried IsDeleted eks.DescribeClusterOutput.Cluster r = true) rs ->
      let waiting := Poll DEL GoC desired iw pi opts (map answers rs) in
      snd waiting = false /\
      ~ In Close (fst waiting) /\
      events (fst waiting) = map (clusterRetryEvent GoC) rs /\
      timers (fst waiting) =
        match length rs with O => [] | S n => 0 :: repeat pi n end /\
      forall output cluster,
        eks.DescribeClusterOutput.Cluster output = Some cluster ->
        aws.StringValue (eks.Cluster.Status cluster) = desired ->
        let run := Poll DEL GoC desired iw pi opts
                        (map answers rs ++ [answers (output, None)]) in
        snd run = true /\
        events (fst run) =
          map (clusterRetryEvent GoC) rs ++
          [{| ClusterStatus.Cluster := Some cluster; ClusterStatus.Error := None |}] /\
        exists w,
          fst run =
            fst waiting ++
            [RecvTimer w; Describe output None;
             Send {| ClusterStatus.Cluster := Some cluster; ClusterStatus.Error := None |};
             Close]) /\
  (forall desired iw pi opts rs,
      Forall (fun r => retried updateNotExists eks.DescribeUpdateOutput.Update r = true) rs ->
      let waiting := PollUpdate GoU desired iw pi opts (map answers rs) in
      snd waiting = false /\
      ~ In Close (fst waiting) /\
      events (fst waiting) = map (updateRetryEvent GoU) rs /\
      timers (fst waiting) =
        match length rs with O => [] | S n => 0 :: repeat pi n end /\
      forall output update,
        eks.DescribeUpdateOutput.Update output = Some update ->
        aws.StringValue (eks.Update.Status update) = desired ->
        let run := PollUpdate GoU desired iw pi opts
                              (map answers rs ++ [answers (output, None)]) in
        snd run = true /\
        events (fst run) =
          map (updateRetryEvent GoU) rs ++
          [{| UpdateStatus.Update := Some update; UpdateStatus.Error := None |}] /\
        exists w,
          fst run =
            fst waiting ++
            [RecvTimer w; Describe output None;
             Send {| UpdateStatus.Update := Some update; UpdateStatus.Error := None |};
             Close]) /\
  (forall desired iw pi opts script pre output err post,
      fst (Poll DEL GoC desired iw pi opts script) = pre ++ Describe output err :: post ->
      retried IsDeleted eks.DescribeClusterOutput.Cluster (output, err) = true ->
      exists post',
        post = Send (clusterRetryEvent GoC (output, err)) :: post' /\
        forall post'', post' <> Close :: post'') /\
  (forall desired iw pi opts script pre output err post,
      fst (PollUpdate GoU desired iw pi opts script) = pre ++ Describe output err :: post ->
      retried updateNotExists eks.DescribeUpdateOutput.Update (output, err) = true ->
      exists post',
        post = Send (updateRetryEvent GoU (output, err)) :: post' /\
        forall post'', post' <> Close :: post'').
Proof.
  split; [|split; [|split]]; [intros desired iw pi opts rs Hrs waiting..| |].
  - subst waiting. unfold Poll.
    set (ret := applyOpts {| queryFunc := None |} opts).
    set (st := {| waitDur := 0; first := true |}).
    destruct (Poll_loop_retries desired iw pi ret rs st Hrs) as (tr & Hrun & Hev & Htm).
    assert (Hw := Hrun []). rewrite app_nil_r in Hw. simpl in Hw.
    rewrite app_nil_r in Hw. rewrite Hw. simpl.
    assert (Hclosed : ~ In Close tr).
    { destruct (Poll_loop_closes_last DEL GoC desired iw pi ret (map answers rs) st)
        as (body & Hbody & Hnot).
      rewrite Hw in Hbody. simpl in Hbody. rewrite app_nil_r in Hbody. congruence. }
    split; [reflexivity|]. split; [exact Hclosed|]. split; [exact Hev|].
    split; [rewrite Htm; destruct (length rs); reflexivity|].
    intros output x Hx Hs.
    rewrite Hrun, (Poll_loop_desired_pass _ _ _ _ _ _ _ Hx Hs). simpl.
    split; [reflexivity|]. split; [|eexists; reflexivity].
    rewrite events_app, Hev. reflexivity.
  - subst waiting. unfold PollUpdate.
    set (ret := applyOpts {| queryFunc := None |} opts).
    set (st := {| waitDur := 0; first := true |}).
    destruct (PollUpdate_loop_retries desired iw pi ret rs st Hrs)
      as (tr & Hrun & Hev & Htm).
    assert (Hw := Hrun []). rewrite app_nil_r in Hw. simpl in Hw.
    rewrite app_nil_r in Hw. rewrite Hw. simpl.
    assert (Hclosed : ~ In Close tr).
    { destruct (PollUpdate_loop_closes_last GoU desired iw pi ret (map answers rs) st)
        as (body & Hbody & Hnot).
      rewrite Hw in Hbody. simpl in Hbody. rewrite app_nil_r in Hbody. congruence. }
    split; [reflexivity|]. split; [exact Hclosed|]. split; [exact Hev|].
    split; [rewrite Htm; destruct (length rs); reflexivity|].
    intros output x Hx Hs.
    rewrite Hrun, (PollUpdate_loop_desired_pass _ _ _ _ _ _ _ Hx Hs). simpl.
    split; [reflexivity|]. split; [|eexists; reflexivity].
    rewrite events_app, Hev. reflexivity.
  - intros desired iw pi opts script pre output err post Htr Hr. unfold Poll in Htr.
    destruct (Poll_loop_retry_tail desired iw pi (applyOpts {| queryFunc := None |} opts)
                script {| waitDur := 0; first := true |}) as [Htails _].
    exact (ForallTails_split _ _ Htails _ _ _ Htr Hr).
  - intros desired iw pi opts script pre output err post Htr Hr. unfold PollUpdate in Htr.
    destruct (PollUpdate_loop_retry_tail desired iw pi
                (applyOpts {| queryFunc := None |} opts)
                script {| waitDur := 0; first := true |}) as [Htails _].
    exact (ForallTails_split _ _ Htails _ _ _ Htr Hr).
Qed.

End Retries.

(** ** The per-pass callback *)

Section Callback.

Variable DEL : string.
Variable GoC : eks.DescribeClusterOutput.t -> string.
Variable GoU : eks.DescribeUpdateOutput.t -> string.

Lemma Poll_loop_callback desired iw pi ret script st :
  ForallTails (callback_tail (queryFunc ret) desired)
    (fst (Poll_loop DEL GoC desired iw pi ret st script)) /\
  starts_quiet (fst (Poll_loop DEL GoC desired iw pi ret st script)).
Proof.
  apply (Poll_loop_rule DEL GoC
           (fun tr _ => ForallTails (callback_tail (queryFunc ret) desired) tr /\
                        starts_quiet tr)).
  - split; [exact I|]. intros g post; discriminate.
  - intros e. callback_case.
  - intros st' it done H. body_cases H; eqb_props; callback_case.
  - intros st' it done st'' rest r H [Hrest Hquiet].
    body_cases H; eqb_props; callback_case;
      try assumption; try (exfalso; eapply Hquiet; eassumption).
Qed.

Lemma PollUpdate_loop_callback desired iw pi ret script st :
  ForallTails (update_callback_tail (queryFunc ret) desired)
    (fst (PollUpdate_loop GoU desired iw pi ret st script)) /\
  starts_quiet (fst (PollUpdate_loop GoU desired iw pi ret st script)).
Proof.
  apply (PollUpdate_loop_rule GoU
           (fun tr _ => ForallTails (update_callback_tail (queryFunc ret) desired) tr /\
                        starts_quiet tr)).
  - split; [exact I|]. intros g post; discriminate.
  - intros e. callback_case.
  - intros st' it done H. body_cases H; eqb_props; callback_case.
  - intros st' it done st'' rest r H [Hrest Hquiet].
    body_cases H; eqb_props; callback_case;
      try assumption; try (exfalso; eapply Hquiet; eassumption).
Qed.

Lemma applyOpts_last op opts f :
  queryFunc (applyOpts op (opts ++ [WithQueryFunc f])) = f.
Proof. unfold applyOpts. rewrite fold_left_app. reflexivity. Qed.

(** C8, amended.  The func that the options leave in [ret] (the last
    [WithQueryFunc] wins) is called right after every snapshot sent with a
    nil error whose status is not the desired one, and at no other point:
    each call follows at once the sending of a snapshot whose status is
    neither the desired nor a failure status.  So no call is made in a pass
    that sends an error event and goes on, nor in a pass that ends on the
    desired status, a failure status or absence, nor on a signal taken at
    the head of the loop; with no func configured no call is made at all. *)
Theorem queryFunc_called_after_pending_snapshots :
  (forall op opts f, queryFunc (applyOpts op (opts ++ [WithQueryFunc f])) = f) /\
  (forall desired iw pi opts script,
      let called := queryFunc (applyOpts {| queryFunc := None |} opts) in
      let tr := fst (Poll DEL GoC desired iw pi opts script) in
      (forall pre cluster post f,
          tr = pre ++
               Send {| ClusterStatus.Cluster := Some cluster; ClusterStatus.Error := None |}
               :: post ->
          aws.StringValue (eks.Cluster.Status cluster) <> desired ->
          called = Some f ->
          exists post', post = QueryFunc f :: post') /\
      (forall pre g post,
          tr = pre ++ QueryFunc g :: post ->
          called = Some g /\
          exists pre' cluster,
            pre = pre' ++
                  [Send {| ClusterStatus.Cluster := Some cluster;
                           ClusterStatus.Error := None |}] /\
            aws.StringValue (eks.Cluster.Status cluster) <> desired /\
            aws.StringValue (eks.Cluster.Status cluster) <> eks.ClusterStatusFailed)) /\
  (forall desired iw pi opts script,
      let called := queryFunc (applyOpts {| queryFunc := None |} opts) in
      let tr := fst (PollUpdate GoU desired iw pi opts script) in
      (forall pre update post f,
          tr = pre ++
               Send {| UpdateStatus.Update := Some update; UpdateStatus.Error := None |}
               :: post ->
          aws.StringValue (eks.Update.Status update) <> desired ->
          called = Some f ->
          exists post', post = QueryFunc f :: post') /\
      (forall pre g post,
          tr = pre ++ QueryFunc g :: post ->
          called = Some g /\
          exists pre' update,
            pre = pre' ++
                  [Send {| UpdateStatus.Update := Some update;
                           UpdateStatus.Error := None |}] /\
            aws.StringValue (eks.Update.Status update) <> desired /\
            aws.StringValue (eks.Update.Status update) <> eks.UpdateStatusCancelled /\
            aws.StringValue (eks.Update.Status update) <> eks.UpdateStatusFailed)).
Proof.
  split; [exact applyOpts_last|].
  split; intros desired iw pi opts script called tr; subst called tr.
  - unfold Poll.
    destruct (Poll_loop_callback desired iw pi (applyOpts {| queryFunc := None |} opts)
                script {| waitDur := 0; first := true |}) as [Htails Hquiet].
    split.
    + intros pre cluster post f Htr Hs Hf.
      destruct (ForallTails_split _ _ Htails _ _ _ Htr) as [Hcall _].
      eapply Hcall; [reflexivity|exact Hs|exact Hf].
    + intros pre g post Htr.
      destruct pre as [|x pre' _] using rev_ind.
      * exfalso. eapply Hquiet. exact Htr.
      * rewrite <- app_assoc in Htr. simpl in Htr.
        destruct (ForallTails_split _ _ Htails _ _ _ Htr) as [_ Hbefore].
        destruct (Hbefore g post eq_refl) as (Hg & cluster & -> & Hs).
        split; [exact Hg|]. exists pre', cluster. split; [reflexivity|exact Hs].
  - unfold PollUpdate.
    destruct (PollUpdate_loop_callback desired iw pi
                (applyOpts {| queryFunc := None |} opts)
                script {| waitDur := 0; first := true |}) as [Htails Hquiet].
    split.
    + intros pre update post f Htr Hs Hf.
      destruct (ForallTails_split _ _ Htails _ _ _ Htr) as [Hcall _].
      eapply Hcall; [reflexivity|exact Hs|exact Hf].
    + intros pre g post Htr.
      destruct pre as [|x pre' _] using rev_ind.
      * exfalso. eapply Hquiet. exact Htr.
      * rewrite <- app_assoc in Htr. simpl in Htr.
        destruct (ForallTails_split _ _ Htails _ _ _ Htr) as [_ Hbefore].
        destruct (Hbefore g post eq_refl) as (Hg & update & -> & Hs).
        split; [exact Hg|]. exists pre', update. split; [reflexivity|exact Hs].
Qed.

End Callback.

(** ** Timing *)

Section Timing.

Variable DEL : string.
Variable GoC : eks.DescribeClusterOutput.t -> string.

Lemma Poll_body_pending desired iw pi ret st output cluster :
  eks.DescribeClusterOutput.Cluster output = Some cluster ->
  pending desired cluster ->
  Poll_body DEL GoC desired iw pi ret st (answers (output, None)) =
  ([RecvTimer (waitDur st); Describe output None;
    Send {| ClusterStatus.Cluster := Some cluster; ClusterStatus.Error := None |}] ++
   callQueryFunc ret ++ (if first st then [RecvTimer iw] else []),
   Some {| waitDur := nextWaitDur (waitDur st) pi; first := false |}).
Proof.
  intros Hc [Hd Hf]. apply String.eqb_neq in Hd, Hf.
  unfold Poll_body; simpl. rewrite Hc, Hd, Hf.
  destruct st as [w [|]]; simpl; [reflexivity|].
  rewrite app_nil_r. reflexivity.
Qed.

(** C2, amended.  With non-negative initial wait and poll interval, when
    the first two Describe calls return a status that is neither desired
    nor failed and the third returns the desired status, [Poll] fires four
    timers, of 0, the initial wait, the poll interval and the poll interval,
    and sends exactly three events: at the start, after the initial wait
    plus one poll interval, and one poll interval later; the third event is
    the snapshot with a nil error, and the channel is closed right after it.
    With a poll interval of 5s and an initial wait of 30s the events come at
    t0, t0+35s and t0+40s. *)
Theorem Poll_three_polls_timeline desired iw pi opts now o1 c1 o2 c2 o3 c3 :
  0 <= iw -> 0 <= pi ->
  eks.DescribeClusterOutput.Cluster o1 = Some c1 -> pending desired c1 ->
  eks.DescribeClusterOutput.Cluster o2 = Some c2 -> pending desired c2 ->
  eks.DescribeClusterOutput.Cluster o3 = Some c3 ->
  aws.StringValue (eks.Cluster.Status c3) = desired ->
  let run := Poll DEL GoC desired iw pi opts
                  [answers (o1, None); answers (o2, None); answers (o3, None)] in
  snd run = true /\
  timers (fst run) = [0; iw; pi; pi] /\
  timeline now (fst run) =
    [(now, {| ClusterStatus.Cluster := Some c1; ClusterStatus.Error := None |});
     (now + iw + pi, {| ClusterStatus.Cluster := Some c2; ClusterStatus.Error := None |});
     (now + iw + pi + pi,
      {| ClusterStatus.Cluster := Some c3; ClusterStatus.Error := None |})] /\
  exists body,
    fst run =
      body ++
      [Send {| ClusterStatus.Cluster := Some c3; ClusterStatus.Error := None |}; Close].
Proof.
  intros Hiw Hpi H1 Hp1 H2 Hp2 H3 Hd3 run. subst run. unfold Poll.
  set (ret := applyOpts {| queryFunc := None |} opts).
  cbn [Poll_loop]. change (ctxErr (answers _)) with (@None CtxError). cbv iota.
  rewrite (Poll_body_pending _ _ _ _ _ _ _ H1 Hp1).
  rewrite (Poll_body_pending _ _ _ _ _ _ _ H2 Hp2).
  rewrite (Poll_body_desired DEL GoC _ _ _ _ _ _ _ H3 Hd3).
  cbn [waitDur first fst snd].
  assert (Hw : nextWaitDur (nextWaitDur 0 pi) pi = pi).
  { unfold nextWaitDur; simpl. destruct (pi =? 0); reflexivity. }
  rewrite Hw. change (nextWaitDur 0 pi) with pi.
  unfold callQueryFunc. destruct (queryFunc ret); simpl.
  all: rewrite !Z.max_r by lia.
  all: repeat split; try reflexivity.
  all: try (repeat f_equal; lia).
  all: match goal with
       | |- exists body, ?tr = _ => exists (removelast (removelast tr)); reflexivity
       end.
Qed.

End Timing.

(** ** Concrete runs *)

Section Runs.

Import Sample.

(** The ways out of [Poll], one run each. *)

Example Poll_exit_desired :
  Sample.Poll "ACTIVE" 0 0 [] [answers (gotCluster "ACTIVE")] =
  ([RecvTimer 0; Describe (fst (gotCluster "ACTIVE")) None; Send (snapshot "ACTIVE"); Close],
   true).
Proof. reflexivity. Qed.

Example Poll_exit_failed :
  Sample.Poll "ACTIVE" 0 0 [] [answers (gotCluster "FAILED")] =
  ([RecvTimer 0; Describe (fst (gotCluster "FAILED")) None;
    Send {| ClusterStatus.Cluster := Some (cluster "FAILED");
            ClusterStatus.Error := Some (errClusterStatus "FAILED") |};
    Close], true).
Proof. reflexivity. Qed.

Example Poll_exit_deleted_as_desired :
  Sample.Poll DELETEDORNOTEXIST 0 0 [] [answers (failedC clusterNotFound)] =
  ([RecvTimer 0; Describe (fst (failedC clusterNotFound)) (Some clusterNotFound);
    Send none; Close], true).
Proof. reflexivity. Qed.

Example Poll_exit_deleted_unexpectedly :
  Sample.Poll "ACTIVE" 0 0 [] [answers (failedC clusterNotFound)] =
  ([RecvTimer 0; Describe (fst (failedC clusterNotFound)) (Some clusterNotFound);
    Send (failure clusterNotFound); Close], true).
Proof. reflexivity. Qed.

Example Poll_exit_cancelled :
  Sample.Poll "ACTIVE" 7 3 [WithQueryFunc (Some 1%nat)] cancelled_in_initial_wait =
  ([RecvTimer 0; Describe (fst (gotCluster "CREATING")) None; Send (snapshot "CREATING");
    QueryFunc 1%nat; RecvDone DeadlineExceeded; Send (failure (ErrCtx DeadlineExceeded));
    Close], true).
Proof. reflexivity. Qed.

Example PollUpdate_exit_stopped :
  Sample.PollUpdate "Successful" 7 3 [] stopped_in_second_pass =
  ([RecvTimer 0; Describe (fst (gotUpdate "InProgress")) None;
    Send {| UpdateStatus.Update := Some (update "InProgress"); UpdateStatus.Error := None |};
    RecvTimer 7; RecvStop;
    Send {| UpdateStatus.Update := None; UpdateStatus.Error := Some errWaitStopped |};
    Close], true).
Proof. reflexivity. Qed.

Example Poll_exit_guard :
  Sample.Poll "ACTIVE" 7 3 [] expired_at_guard =
  ([RecvTimer 0; Describe (fst (failedC throttled)) (Some throttled);
    Send (failure throttled); Send (failure (ErrCtx Canceled)); Close], true).
Proof. reflexivity. Qed.

Example Poll_still_polling :
  Sample.Poll "ACTIVE" 7 3 [] [answers (gotCluster "CREATING"); answers (gotCluster "CREATING")] =
  ([RecvTimer 0; Describe (fst (gotCluster "CREATING")) None; Send (snapshot "CREATING");
    RecvTimer 7;
    RecvTimer 3; Describe (fst (gotCluster "CREATING")) None; Send (snapshot "CREATING")],
   false).
Proof. reflexivity. Qed.

Example classifiers_on_samples :
  IsDeleted (Some clusterNotFound) = true /\
  IsDeleted (Some (ErrNew "ResourceNotFoundException: No cluster found for name: c")) = true /\
  IsDeleted (Some (ErrAws "ResourceNotFoundException" "No cluster found for c" EmptyString)) = true /\
  IsDeleted (Some (ErrAws "AccessDenied" "No cluster found for c" "denied")) = false /\
  IsDeleted (Some throttled) = false /\
  updateNotExists (Some updateNotFound) = true /\
  updateNotExists (Some (ErrNew "No update found")) = true /\
  updateNotExists (Some clusterNotFound) = false.
Proof. repeat split; reflexivity. Qed.

End Runs.

(** ** The properties on concrete runs *)

(** C2 as stated fails: with a poll interval of 5s and an initial wait of
    30s, the second and third events cannot be sent before 35s and 40s, since
    the timer of the loop head (5s) runs after the initial wait (30s) and
    before the second query. *)
Lemma second_event_not_at_initial_wait :
  timers (fst (Sample.Poll "ACTIVE" (30 * time.Second) (5 * time.Second) []
                 Sample.creating_creating_active)) =
    [0; 30 * time.Second; 5 * time.Second; 5 * time.Second] /\
  map fst (timeline 0 (fst (Sample.Poll "ACTIVE" (30 * time.Second) (5 * time.Second) []
                              Sample.creating_creating_active))) =
    [0; 35 * time.Second; 40 * time.Second] /\
  map fst (timeline 0 (fst (Sample.Poll "ACTIVE" (30 * time.Second) (5 * time.Second) []
                              Sample.creating_creating_active))) <>
    [0; 30 * time.Second; 35 * time.Second].
Proof.
  split; [reflexivity|]. split; [reflexivity|].
  intros H. vm_compute in H. discriminate H.
Qed.

(** The run CREATING, CREATING, ACTIVE with an initial wait of 30s and a poll
    interval of 5s. *)
Lemma Poll_three_polls_timeline_witness :
  (0 <= 30 * time.Second /\ 0 <= 5 * time.Second /\
   pending "ACTIVE" (Sample.cluster "CREATING") /\
   aws.StringValue (eks.Cluster.Status (Sample.cluster "ACTIVE")) = "ACTIVE") /\
  (snd (Sample.Poll "ACTIVE" (30 * time.Second) (5 * time.Second) []
          Sample.creating_creating_active) = true /\
   timers (fst (Sample.Poll "ACTIVE" (30 * time.Second) (5 * time.Second) []
                  Sample.creating_creating_active)) =
     [0; 30 * time.Second; 5 * time.Second; 5 * time.Second] /\
   timeline 0 (fst (Sample.Poll "ACTIVE" (30 * time.Second) (5 * time.Second) []
                      Sample.creating_creating_active)) =
     [(0, {| ClusterStatus.Cluster := Some (Sample.cluster "CREATING");
             ClusterStatus.Error := None |});
      (0 + 30 * time.Second + 5 * time.Second,
       {| ClusterStatus.Cluster := Some (Sample.cluster "CREATING");
          ClusterStatus.Error := None |});
      (0 + 30 * time.Second + 5 * time.Second + 5 * time.Second,
       {| ClusterStatus.Cluster := Some (Sample.cluster "ACTIVE");
          ClusterStatus.Error := None |})] /\
   exists body,
     fst (Sample.Poll "ACTIVE" (30 * time.Second) (5 * time.Second) []
            Sample.creating_creating_active) =
     body ++
     [Send {| ClusterStatus.Cluster := Some (Sample.cluster "ACTIVE");
              ClusterStatus.Error := None |}; Close]).
Proof.
  assert (Hiw : 0 <= 30 * time.Second) by (vm_compute; discriminate).
  assert (Hpi : 0 <= 5 * time.Second) by (vm_compute; discriminate).
  assert (Hp : pending "ACTIVE" (Sample.cluster "CREATING"))
    by (split; simpl; discriminate).
  split; [repeat split; try assumption; apply Hp|].
  exact (Poll_three_polls_timeline Sample.DELETEDORNOTEXIST Sample.GoStringC
           "ACTIVE" (30 * time.Second) (5 * time.Second) [] 0
           (fst (Sample.gotCluster "CREATING")) (Sample.cluster "CREATING")
           (fst (Sample.gotCluster "CREATING")) (Sample.cluster "CREATING")
           (fst (Sample.gotCluster "ACTIVE")) (Sample.cluster "ACTIVE")
           Hiw Hpi eq_refl Hp eq_refl Hp eq_refl eq_refl).
Defined.

(** Absence at the first query with the deleted-or-not-exist status desired,
    and absence at the second query with ACTIVE desired. *)
Lemma Poll_on_absence_witness :
  (fst (Sample.Poll Sample.DELETEDORNOTEXIST 0 0 [] [answers (Sample.failedC Sample.clusterNotFound)]) =
     [RecvTimer 0] ++
     Describe (fst (Sample.failedC Sample.clusterNotFound)) (Some Sample.clusterNotFound)
     :: [Send {| ClusterStatus.Cluster := None; ClusterStatus.Error := None |}; Close] /\
   IsDeleted (Some Sample.clusterNotFound) = true) /\
  ([Send {| ClusterStatus.Cluster := None; ClusterStatus.Error := None |}; Close] =
   [Send {| ClusterStatus.Cluster := None; ClusterStatus.Error := None |};
    @Close eks.DescribeClusterOutput.t ClusterStatus.t] /\
   snd (Sample.Poll Sample.DELETEDORNOTEXIST 0 0 []
          [answers (Sample.failedC Sample.clusterNotFound)]) = true) /\
  (fst (Sample.Poll "ACTIVE" 0 0 []
          [answers (Sample.failedC Sample.throttled);
           answers (Sample.failedC Sample.clusterNotFound)]) =
     [RecvTimer 0;
      Describe (fst (Sample.failedC Sample.throttled)) (Some Sample.throttled);
      Send {| ClusterStatus.Cluster := None; ClusterStatus.Error := Some Sample.throttled |};
      RecvTimer 0] ++
     Describe (fst (Sample.failedC Sample.clusterNotFound)) (Some Sample.clusterNotFound)
     :: [Send {| ClusterStatus.Cluster := None;
                 ClusterStatus.Error := Some Sample.clusterNotFound |}; Close]) /\
  ([Send {| ClusterStatus.Cluster := None;
            ClusterStatus.Error := Some Sample.clusterNotFound |}; Close] =
   [Send {| ClusterStatus.Cluster := None;
            ClusterStatus.Error := Some Sample.clusterNotFound |};
    @Close eks.DescribeClusterOutput.t ClusterStatus.t] /\
   snd (Sample.Poll "ACTIVE" 0 0 []
          [answers (Sample.failedC Sample.throttled);
           answers (Sample.failedC Sample.clusterNotFound)]) = true).
Proof.
  split; [split; reflexivity|].
  split; [|split; [reflexivity|]].
  - exact (Poll_on_absence Sample.DELETEDORNOTEXIST Sample.GoStringC
             Sample.DELETEDORNOTEXIST 0 0 [] [answers (Sample.failedC Sample.clusterNotFound)]
             [RecvTimer 0] (fst (Sample.failedC Sample.clusterNotFound))
             Sample.clusterNotFound
             [Send {| ClusterStatus.Cluster := None; ClusterStatus.Error := None |}; Close]
             eq_refl eq_refl).
  - exact (Poll_on_absence Sample.DELETEDORNOTEXIST Sample.GoStringC
             "ACTIVE" 0 0 []
             [answers (Sample.failedC Sample.throttled);
              answers (Sample.failedC Sample.clusterNotFound)]
             [RecvTimer 0;
              Describe (fst (Sample.failedC Sample.throttled)) (Some Sample.throttled);
              Send {| ClusterStatus.Cluster := None;
                      ClusterStatus.Error := Some Sample.throttled |};
              RecvTimer 0]
             (fst (Sample.failedC Sample.clusterNotFound)) Sample.clusterNotFound
             [Send {| ClusterStatus.Cluster := None;
                      ClusterStatus.Error := Some Sample.clusterNotFound |}; Close]
             eq_refl eq_refl).
Defined.

(** The update is not found at the first query. *)
Lemma PollUpdate_on_absence_witness :
  (fst (Sample.PollUpdate "Successful" 0 0 []
          [answers (Sample.failedU Sample.updateNotFound)]) =
     [RecvTimer 0] ++
     Describe (fst (Sample.failedU Sample.updateNotFound)) (Some Sample.updateNotFound)
     :: [Send {| UpdateStatus.Update := None;
                 UpdateStatus.Error := Some Sample.updateNotFound |}; Close] /\
   updateNotExists (Some Sample.updateNotFound) = true) /\
  ([Send {| UpdateStatus.Update := None;
            UpdateStatus.Error := Some Sample.updateNotFound |}; Close] =
   [Send {| UpdateStatus.Update := None;
            UpdateStatus.Error := Some Sample.updateNotFound |};
    @Close eks.DescribeUpdateOutput.t UpdateStatus.t] /\
   snd (Sample.PollUpdate "Successful" 0 0 []
          [answers (Sample.failedU Sample.updateNotFound)]) = true).
Proof.
  split; [split; reflexivity|].
  exact (PollUpdate_on_absence Sample.GoStringU "Successful" 0 0 []
           [answers (Sample.failedU Sample.updateNotFound)]
           [RecvTimer 0] (fst (Sample.failedU Sample.updateNotFound))
           Sample.updateNotFound
           [Send {| UpdateStatus.Update := None;
                    UpdateStatus.Error := Some Sample.updateNotFound |}; Close]
           eq_refl eq_refl).
Defined.

(** C4 as stated fails: the event that ends a run on the absence that was
    desired has neither field set, and the event that ends a run on the
    failure status has both. *)
Lemma events_with_no_or_both_fields :
  ~ Forall (fun ev => one_field (ClusterStatus.Cluster ev) (ClusterStatus.Error ev) = true)
      (events (fst (Sample.Poll Sample.DELETEDORNOTEXIST 0 0 []
                      [answers (Sample.failedC Sample.clusterNotFound)]))) /\
  ~ Forall (fun ev => one_field (ClusterStatus.Cluster ev) (ClusterStatus.Error ev) = true)
      (events (fst (Sample.Poll "ACTIVE" 0 0 [] [answers (Sample.gotCluster "FAILED")]))).
Proof.
  split; intros H; vm_compute in H; inversion H as [|? ? Hev _]; discriminate Hev.
Qed.

(** The event that ends a run on the status FAILED. *)
Lemma events_one_field_but_last_witness :
  fst (Sample.Poll "ACTIVE" 0 0 [] [answers (Sample.gotCluster "FAILED")]) =
    [RecvTimer 0; Describe (fst (Sample.gotCluster "FAILED")) None] ++
    Send {| ClusterStatus.Cluster := Some (Sample.cluster "FAILED");
            ClusterStatus.Error := Some (errClusterStatus eks.ClusterStatusFailed) |}
    :: [Close] /\
  (one_field (Some (Sample.cluster "FAILED"))
             (Some (errClusterStatus eks.ClusterStatusFailed)) = true \/
   ([@Close eks.DescribeClusterOutput.t ClusterStatus.t] = [Close] /\
    (({| ClusterStatus.Cluster := Some (Sample.cluster "FAILED");
         ClusterStatus.Error := Some (errClusterStatus eks.ClusterStatusFailed) |} =
      {| ClusterStatus.Cluster := None; ClusterStatus.Error := None |} /\
      "ACTIVE"%string = Sample.DELETEDORNOTEXIST) \/
     (exists cluster,
         {| ClusterStatus.Cluster := Some (Sample.cluster "FAILED");
            ClusterStatus.Error := Some (errClusterStatus eks.ClusterStatusFailed) |} =
         {| ClusterStatus.Cluster := Some cluster;
            ClusterStatus.Error := Some (errClusterStatus eks.ClusterStatusFailed) |} /\
         aws.StringValue (eks.Cluster.Status cluster) = eks.ClusterStatusFailed /\
         "ACTIVE"%string <> eks.ClusterStatusFailed)))).
Proof.
  split; [reflexivity|].
  exact (proj1 (events_one_field_but_last Sample.DELETEDORNOTEXIST Sample.GoStringC
                  Sample.GoStringU)
           "ACTIVE"%string 0 0 [] [answers (Sample.gotCluster "FAILED")]
           [RecvTimer 0; Describe (fst (Sample.gotCluster "FAILED")) None]
           {| ClusterStatus.Cluster := Some (Sample.cluster "FAILED");
              ClusterStatus.Error := Some (errClusterStatus eks.ClusterStatusFailed) |}
           [Close] eq_refl).
Defined.

(** The run [throttled, ACTIVE]. *)
Lemma retried_responses_keep_the_run_going_witness :
  Forall (fun r => retried IsDeleted eks.DescribeClusterOutput.Cluster r = true)
    [Sample.failedC Sample.throttled] /\
  snd (Sample.Poll "ACTIVE" 30 5 [] [answers (Sample.failedC Sample.throttled)]) = false /\
  events (fst (Sample.Poll "ACTIVE" 30 5 []
                 [answers (Sample.failedC Sample.throttled);
                  answers (Sample.gotCluster "ACTIVE")])) =
    [{| ClusterStatus.Cluster := None; ClusterStatus.Error := Some Sample.throttled |};
     {| ClusterStatus.Cluster := Some (Sample.cluster "ACTIVE");
        ClusterStatus.Error := None |}] /\
  snd (Sample.Poll "ACTIVE" 30 5 []
         [answers (Sample.failedC Sample.throttled);
          answers (Sample.gotCluster "ACTIVE")]) = true.
Proof.
  assert (Hrs : Forall (fun r => retried IsDeleted eks.DescribeClusterOutput.Cluster r = true)
                  [Sample.failedC Sample.throttled])
    by (constructor; [reflexivity|constructor]).
  destruct (proj1 (retried_responses_keep_the_run_going Sample.DELETEDORNOTEXIST
                     Sample.GoStringC Sample.GoStringU)
              "ACTIVE"%string 30 5 [] [Sample.failedC Sample.throttled] Hrs)
    as (Hwaiting & _ & _ & _ & Hrun).
  destruct (Hrun (fst (Sample.gotCluster "ACTIVE")) (Sample.cluster "ACTIVE")
              eq_refl eq_refl) as (Hreturned & Hevents & _).
  split; [exact Hrs|]. split; [exact Hwaiting|]. split; [exact Hevents|exact Hreturned].
Defined.


(** C8 as stated fails: a pass that sends a query error and goes on does not
    end the run, yet the configured func is not called in it; and the func is
    called in a first pass that the context's Done then ends during the
    initial wait. *)
Lemma queryFunc_not_called_after_retried_error :
  queryFunc (applyOpts {| queryFunc := None |} [WithQueryFunc (Some 1%nat)]) = Some 1%nat /\
  (snd (Sample.Poll "ACTIVE" 7 3 [WithQueryFunc (Some 1%nat)]
          [answers (Sample.failedC Sample.throttled)]) = false /\
   ~ In (QueryFunc 1%nat)
        (fst (Sample.Poll "ACTIVE" 7 3 [WithQueryFunc (Some 1%nat)]
                [answers (Sample.failedC Sample.throttled)]))) /\
  (In (RecvDone DeadlineExceeded)
      (fst (Sample.Poll "ACTIVE" 7 3 [WithQueryFunc (Some 1%nat)]
              Sample.cancelled_in_initial_wait)) /\
   In (QueryFunc 1%nat)
      (fst (Sample.Poll "ACTIVE" 7 3 [WithQueryFunc (Some 1%nat)]
              Sample.cancelled_in_initial_wait))).
Proof.
  split; [reflexivity|]. split.
  - split; [reflexivity|]. vm_compute. intuition discriminate.
  - vm_compute. intuition.
Qed.

(** One pass on the status CREATING with a func configured. *)
Lemma queryFunc_called_after_pending_snapshots_witness :
  (fst (Sample.Poll "ACTIVE" 7 3 [WithQueryFunc (Some 1%nat)]
          [answers (Sample.gotCluster "CREATING")]) =
     [RecvTimer 0; Describe (fst (Sample.gotCluster "CREATING")) None] ++
     Send {| ClusterStatus.Cluster := Some (Sample.cluster "CREATING");
             ClusterStatus.Error := None |}
     :: [QueryFunc 1%nat; RecvTimer 7] /\
   aws.StringValue (eks.Cluster.Status (Sample.cluster "CREATING")) <> "ACTIVE"%string /\
   queryFunc (applyOpts {| queryFunc := None |} [WithQueryFunc (Some 1%nat)]) =
     Some 1%nat) /\
  (exists post',
      [@QueryFunc eks.DescribeClusterOutput.t ClusterStatus.t 1%nat; RecvTimer 7] =
      QueryFunc 1%nat :: post') /\
  (queryFunc (applyOpts {| queryFunc := None |} [WithQueryFunc (Some 1%nat)]) =
     Some 1%nat /\
   exists pre' cluster,
     [RecvTimer 0; Describe (fst (Sample.gotCluster "CREATING")) None;
      Send {| ClusterStatus.Cluster := Some (Sample.cluster "CREATING");
              ClusterStatus.Error := None |}] =
     pre' ++ [Send {| ClusterStatus.Cluster := Some cluster; ClusterStatus.Error := None |}] /\
     aws.StringValue (eks.Cluster.Status cluster) <> "ACTIVE"%string /\
     aws.StringValue (eks.Cluster.Status cluster) <> eks.ClusterStatusFailed).
Proof.
  assert (Hs : aws.StringValue (eks.Cluster.Status (Sample.cluster "CREATING")) <>
               "ACTIVE"%string) by (simpl; discriminate).
  destruct (proj1 (proj2 (queryFunc_called_after_pending_snapshots
                            Sample.DELETEDORNOTEXIST Sample.GoStringC Sample.GoStringU))
              "ACTIVE"%string 7 3 [WithQueryFunc (Some 1%nat)]
              [answers (Sample.gotCluster "CREATING")]) as [Hcalled Hbefore].
  split; [split; [reflexivity|split; [exact Hs|reflexivity]]|].
  split.
  - exact (Hcalled [RecvTimer 0; Describe (fst (Sample.gotCluster "CREATING")) None]
             (Sample.cluster "CREATING") [QueryFunc 1%nat; RecvTimer 7] 1%nat
             eq_refl Hs eq_refl).
  - exact (Hbefore [RecvTimer 0; Describe (fst (Sample.gotCluster "CREATING")) None;
                    Send {| ClusterStatus.Cluster := Some (Sample.cluster "CREATING");
                            ClusterStatus.Error := None |}]
             1%nat [RecvTimer 7] eq_refl).
Defined.

(** The failure statuses as desired statuses. *)
Lemma desired_status_before_failure_status_witness :
  (fst (Sample.Poll eks.ClusterStatusFailed 0 0 [] [answers (Sample.gotCluster "FAILED")]) =
     [RecvTimer 0] ++
     Describe (fst (Sample.gotCluster "FAILED")) None :: 
     [Send {| ClusterStatus.Cluster := Some (Sample.cluster "FAILED");
              ClusterStatus.Error := None |}; Close] /\
   snd (Sample.Poll eks.ClusterStatusFailed 0 0 []
          [answers (Sample.gotCluster "FAILED")]) = true) /\
  (fst (Sample.PollUpdate eks.UpdateStatusCancelled 0 0 []
          [answers (Sample.gotUpdate "Cancelled")]) =
     [RecvTimer 0] ++
     Describe (fst (Sample.gotUpdate "Cancelled")) None :: 
     [Send {| UpdateStatus.Update := Some (Sample.update "Cancelled");
              UpdateStatus.Error := None |}; Close] /\
   snd (Sample.PollUpdate eks.UpdateStatusCancelled 0 0 []
          [answers (Sample.gotUpdate "Cancelled")]) = true) /\
  (fst (Sample.PollUpdate eks.UpdateStatusFailed 0 0 []
          [answers (Sample.gotUpdate "Failed")]) =
     [RecvTimer 0] ++
     Describe (fst (Sample.gotUpdate "Failed")) None :: 
     [Send {| UpdateStatus.Update := Some (Sample.update "Failed");
              UpdateStatus.Error := None |}; Close] /\
   snd (Sample.PollUpdate eks.UpdateStatusFailed 0 0 []
          [answers (Sample.gotUpdate "Failed")]) = true).
Proof.
  split; [|split].
  - split; [reflexivity|].
    exact (proj2 (proj1 (desired_status_before_failure_status Sample.DELETEDORNOTEXIST
                           Sample.GoStringC Sample.GoStringU)
                    0 0 [] [answers (Sample.gotCluster "FAILED")]
                    [RecvTimer 0] (fst (Sample.gotCluster "FAILED")) (Sample.cluster "FAILED")
                    [Send {| ClusterStatus.Cluster := Some (Sample.cluster "FAILED");
                             ClusterStatus.Error := None |}; Close]
                    eq_refl eq_refl eq_refl)).
  - split; [reflexivity|].
    exact (proj2 (proj2 (desired_status_before_failure_status Sample.DELETEDORNOTEXIST
                           Sample.GoStringC Sample.GoStringU)
                    eks.UpdateStatusCancelled 0 0 [] [answers (Sample.gotUpdate "Cancelled")]
                    [RecvTimer 0] (fst (Sample.gotUpdate "Cancelled"))
                    (Sample.update "Cancelled")
                    [Send {| UpdateStatus.Update := Some (Sample.update "Cancelled");
                             UpdateStatus.Error := None |}; Close]
                    (or_introl eq_refl) eq_refl eq_refl eq_refl)).
  - split; [reflexivity|].
    exact (proj2 (proj2 (desired_status_before_failure_status Sample.DELETEDORNOTEXIST
                           Sample.GoStringC Sample.GoStringU)
                    eks.UpdateStatusFailed 0 0 [] [answers (Sample.gotUpdate "Failed")]
                    [RecvTimer 0] (fst (Sample.gotUpdate "Failed"))
                    (Sample.update "Failed")
                    [Send {| UpdateStatus.Update := Some (Sample.update "Failed");
                             UpdateStatus.Error := None |}; Close]
                    (or_intror eq_refl) eq_refl eq_refl eq_refl)).
Defined.


(** * Further properties of the loops *)

Section Further.

Variable DEL : string.
Variable GoC : eks.DescribeClusterOutput.t -> string.
Variable GoU : eks.DescribeUpdateOutput.t -> string.

(** X1. Whatever the desired status, once a Describe call returns a snapshot
    with that status the goroutine sends the snapshot with a nil error,
    closes and returns, in [Poll] and in [PollUpdate]. *)
Theorem desired_status_ends_the_run :
  (forall desired iw pi opts script pre output cluster post,
      fst (Poll DEL GoC desired iw pi opts script) = pre ++ Describe output None :: post ->
      eks.DescribeClusterOutput.Cluster output = Some cluster ->
      aws.StringValue (eks.Cluster.Status cluster) = desired ->
      post =
        [Send {| ClusterStatus.Cluster := Some cluster; ClusterStatus.Error := None |};
         Close] /\
      snd (Poll DEL GoC desired iw pi opts script) = true) /\
  (forall desired iw pi opts script pre output update post,
      fst (PollUpdate GoU desired iw pi opts script) = pre ++ Describe output None :: post ->
      eks.DescribeUpdateOutput.Update output = Some update ->
      aws.StringValue (eks.Update.Status update) = desired ->
      post =
        [Send {| UpdateStatus.Update := Some update; UpdateStatus.Error := None |};
         Close] /\
      snd (PollUpdate GoU desired iw pi opts script) = true).
Proof.
  split.
  - intros desired iw pi opts script pre output cluster post Htr Hc Hs. unfold Poll in *.
    assert (Hpost := ForallTails_split _ _
                       (Poll_loop_desired DEL GoC desired iw pi _ script _) _ _ _ Htr _ Hc Hs).
    split; [exact Hpost|].
    apply Poll_returned_of_close. rewrite Htr, Hpost.
    apply in_or_app; right; simpl; auto.
  - intros desired iw pi opts script pre output update post Htr Hu Hs. unfold PollUpdate in *.
    assert (Hpost := ForallTails_split _ _
                       (PollUpdate_loop_desired GoU desired iw pi _ script _) _ _ _ Htr _ Hu Hs).
    split; [exact Hpost|].
    apply PollUpdate_returned_of_close. rewrite Htr, Hpost.
    apply in_or_app; right; simpl; auto.
Qed.

Lemma Poll_loop_failure desired iw pi ret script st :
  ForallTails (failure_tail desired) (fst (Poll_loop DEL GoC desired iw pi ret st script)).
Proof.
  apply (Poll_loop_rule DEL GoC (fun tr _ => ForallTails (failure_tail desired) tr)).
  - exact I.
  - intros e; simpl; tauto.
  - intros st' it done H. body_cases H; eqb_props; simpl; repeat split; intros;
      congruence.
  - intros st' it done st'' rest r H Hrest.
    body_cases H; eqb_props; simpl; repeat split; intros; congruence || assumption.
Qed.

Lemma PollUpdate_loop_failure desired iw pi ret script st :
  ForallTails (update_failure_tail desired)
    (fst (PollUpdate_loop GoU desired iw pi ret st script)).
Proof.
  apply (PollUpdate_loop_rule GoU (fun tr _ => ForallTails (update_failure_tail desired) tr)).
  - exact I.
  - intros e; simpl; tauto.
  - intros st' it done H. body_cases H; eqb_props; simpl; repeat split; intros;
      try congruence;
      match goal with Hs : _ \/ _ |- _ => destruct Hs; subst; congruence end.
  - intros st' it done st'' rest r H Hrest.
    body_cases H; eqb_props; simpl; repeat split; intros;
      try congruence; try assumption;
      match goal with Hs : _ \/ _ |- _ => destruct Hs; subst; congruence end.
Qed.

(** X2. Once a Describe call returns a snapshot whose status is a hard-coded
    failure status (FAILED in [Poll]; Cancelled or Failed in [PollUpdate])
    and that status is not the desired one, the goroutine sends the snapshot
    together with the error "unexpected cluster (update) status" naming that
    status, closes and returns. *)
Theorem failure_status_ends_the_run :
  (forall desired iw pi opts script pre output cluster post,
      fst (Poll DEL GoC desired iw pi opts script) = pre ++ Describe output None :: post ->
      eks.DescribeClusterOutput.Cluster output = Some cluster ->
      aws.StringValue (eks.Cluster.Status cluster) = eks.ClusterStatusFailed ->
      desired <> eks.ClusterStatusFailed ->
      post =
        [Send {| ClusterStatus.Cluster := Some cluster;
                 ClusterStatus.Error := Some (errClusterStatus eks.ClusterStatusFailed) |};
         Close] /\
      snd (Poll DEL GoC desired iw pi opts script) = true) /\
  (forall desired iw pi opts script pre output update status post,
      fst (PollUpdate GoU desired iw pi opts script) = pre ++ Describe output None :: post ->
      eks.DescribeUpdateOutput.Update output = Some update ->
      aws.StringValue (eks.Update.Status update) = status ->
      status = eks.UpdateStatusCancelled \/ status = eks.UpdateStatusFailed ->
      desired <> status ->
      post =
        [Send {| UpdateStatus.Update := Some update;
                 UpdateStatus.Error := Some (errUpdateStatus status) |};
         Close] /\
      snd (PollUpdate GoU desired iw pi opts script) = true).
Proof.
  split.
  - intros desired iw pi opts script pre output cluster post Htr Hc Hs Hd. unfold Poll in *.
    assert (Hpost := ForallTails_split _ _
                       (Poll_loop_failure desired iw pi _ script _) _ _ _ Htr _ Hc Hs Hd).
    split; [exact Hpost|].
    apply Poll_returned_of_close. rewrite Htr, Hpost.
    apply in_or_app; right; simpl; auto.
  - intros desired iw pi opts script pre output update status post Htr Hu Hs Hf Hd.
    unfold PollUpdate in *.
    assert (Hpost := ForallTails_split _ _
                       (PollUpdate_loop_failure desired iw pi _ script _)
                       _ _ _ Htr _ _ Hu Hs Hf Hd).
    split; [exact Hpost|].
    apply PollUpdate_returned_of_close. rewrite Htr, Hpost.
    apply in_or_app; right; simpl; auto.
Qed.

Lemma Poll_loop_report desired iw pi ret script st :
  ForallTails (report_tail DEL GoC desired)
    (fst (Poll_loop DEL GoC desired iw pi ret st script)).
Proof.
  apply (Poll_loop_rule DEL GoC (fun tr _ => ForallTails (report_tail DEL GoC desired) tr)).
  - exact I.
  - intros e; simpl; tauto.
  - intros st' it done H. body_cases H; eqb_props; report_case.
  - intros st' it done st'' rest r H Hrest. body_cases H; eqb_props; report_case.
Qed.

Lemma PollUpdate_loop_report desired iw pi ret script st :
  ForallTails (update_report_tail GoU)
    (fst (PollUpdate_loop GoU desired iw pi ret st script)).
Proof.
  apply (PollUpdate_loop_rule GoU (fun tr _ => ForallTails (update_report_tail GoU) tr)).
  - exact I.
  - intros e; simpl; tauto.
  - intros st' it done H. body_cases H; eqb_props; report_case.
  - intros st' it done st'' rest r H Hrest. body_cases H; eqb_props; report_case.
Qed.

(** X3. No response is dropped: right after every Describe call the
    goroutine sends an event for it.  After an error the event has no
    snapshot and carries that error (in [Poll], no error at all when the
    error is taken for absence and absence is desired); after a success the
    event carries the payload as returned, and the error "unexpected empty
    response" when there is no payload. *)
Theorem every_response_is_reported :
  (forall desired iw pi opts script pre output err post,
      fst (Poll DEL GoC desired iw pi opts script) = pre ++ Describe output err :: post ->
      exists ev post',
        post = Send ev :: post' /\
        match err with
        | Some e =>
            ClusterStatus.Cluster ev = None /\
            (ClusterStatus.Error ev = Some e \/
             (ClusterStatus.Error ev = None /\ IsDeleted err = true /\ desired = DEL))
        | None =>
            ClusterStatus.Cluster ev = eks.DescribeClusterOutput.Cluster output /\
            (eks.DescribeClusterOutput.Cluster output = None ->
             ClusterStatus.Error ev = Some (errEmptyCluster GoC output))
        end) /\
  (forall desired iw pi opts script pre output err post,
      fst (PollUpdate GoU desired iw pi opts script) = pre ++ Describe output err :: post ->
      exists ev post',
        post = Send ev :: post' /\
        match err with
        | Some e => UpdateStatus.Update ev = None /\ UpdateStatus.Error ev = Some e
        | None =>
            UpdateStatus.Update ev = eks.DescribeUpdateOutput.Update output /\
            (eks.DescribeUpdateOutput.Update output = None ->
             UpdateStatus.Error ev = Some (errEmptyUpdate GoU output))
        end).
Proof.
  split; intros desired iw pi opts script pre output err post Htr.
  - exact (ForallTails_split _ _ (Poll_loop_report desired iw pi _ script _) _ _ _ Htr).
  - exact (ForallTails_split _ _ (PollUpdate_loop_report desired iw pi _ script _) _ _ _ Htr).
Qed.

Lemma Poll_loop_close desired iw pi ret script st :
  ForallTails (close_tail DEL desired)
    (fst (Poll_loop DEL GoC desired iw pi ret st script)) /\
  starts_open (fst (Poll_loop DEL GoC desired iw pi ret st script)).
Proof.
  apply (Poll_loop_rule DEL GoC
           (fun tr _ => ForallTails (close_tail DEL desired) tr /\ starts_open tr)).
  - split; [exact I|]. intros post; discriminate.
  - intros e. close_case.
  - intros st' it done H. body_cases H; eqb_props; close_case.
  - intros st' it done st'' rest r H [Hrest Hopen].
    body_cases H; eqb_props; close_case;
      exfalso; eapply Hopen; eassumption.
Qed.

Lemma PollUpdate_loop_close desired iw pi ret script st :
  ForallTails (update_close_tail desired)
    (fst (PollUpdate_loop GoU desired iw pi ret st script)) /\
  starts_open (fst (PollUpdate_loop GoU desired iw pi ret st script)).
Proof.
  apply (PollUpdate_loop_rule GoU
           (fun tr _ => ForallTails (update_close_tail desired) tr /\ starts_open tr)).
  - split; [exact I|]. intros post; discriminate.
  - intros e. close_case.
  - intros st' it done H. body_cases H; eqb_props; close_case.
  - intros st' it done st'' rest r H [Hrest Hopen].
    body_cases H; eqb_props; close_case;
      exfalso; eapply Hopen; eassumption.
Qed.

(** X4. The channel is never closed without a last word: a goroutine that
    returned has sent an event right before closing, and that event is the
    context's error, the stop error, an absence (nil/nil when desired, the
    query error otherwise), the snapshot with the desired status and a nil
    error, or the snapshot with a failure status and its error.  An event
    for a retried response or for a status still pending is never the one
    before the close. *)
Theorem last_event_before_close :
  (forall desired iw pi opts script,
      snd (Poll DEL GoC desired iw pi opts script) = true ->
      exists pre ev,
        fst (Poll DEL GoC desired iw pi opts script) = pre ++ [Send ev; Close] /\
        final_event DEL desired ev) /\
  (forall desired iw pi opts script,
      snd (PollUpdate GoU desired iw pi opts script) = true ->
      exists pre ev,
        fst (PollUpdate GoU desired iw pi opts script) = pre ++ [Send ev; Close] /\
        update_final_event desired ev).
Proof.
  split; intros desired iw pi opts script Hret.
  - unfold Poll in *.
    set (ret := applyOpts {| queryFunc := None |} opts) in *.
    set (st := {| waitDur := 0; first := true |}) in *.
    destruct (Poll_loop_closes_last DEL GoC desired iw pi ret script st)
      as (body & Hbody & _).
    destruct (Poll_loop_close desired iw pi ret script st) as [Htails Hopen].
    rewrite Hret in Hbody.
    destruct body as [|x body' _] using rev_ind.
    + exfalso. eapply Hopen. exact Hbody.
    + rewrite <- app_assoc in Hbody. simpl in Hbody.
      destruct (ForallTails_split _ _ Htails _ _ _ Hbody [] eq_refl) as (ev & -> & Hev).
      exists body', ev. split; assumption.
  - unfold PollUpdate in *.
    set (ret := applyOpts {| queryFunc := None |} opts) in *.
    set (st := {| waitDur := 0; first := true |}) in *.
    destruct (PollUpdate_loop_closes_last GoU desired iw pi ret script st)
      as (body & Hbody & _).
    destruct (PollUpdate_loop_close desired iw pi ret script st) as [Htails Hopen].
    rewrite Hret in Hbody.
    destruct body as [|x body' _] using rev_ind.
    + exfalso. eapply Hopen. exact Hbody.
    + rewrite <- app_assoc in Hbody. simpl in Hbody.
      destruct (ForallTails_split _ _ Htails _ _ _ Hbody [] eq_refl) as (ev & -> & Hev).
      exists body', ev. split; assumption.
Qed.

Lemma describes_app {Out Ev} (tr tr' : list (action Out Ev)) :
  describes (tr ++ tr') = describes tr ++ describes tr'.
Proof.
  induction tr as [|[] tr IH]; simpl; rewrite ?IH; reflexivity.
Qed.

Lemma Poll_body_quiet desired iw pi ret st it :
  quiet (keepsPolling desired) it ->
  exists done st',
    Poll_body DEL GoC desired iw pi ret st it = (done, Some st') /\
    describes done = [response it] /\ length (events done) = 1%nat.
Proof.
  intros (_ & Hs & Hi & Hk). unfold keepsPolling in Hk. unfold Poll_body.
  rewrite Hs, Hi. destruct (response it) as [output [e|]]; simpl in Hk |- *.
  - apply negb_true_iff in Hk. rewrite Hk.
    do 2 eexists; split; [reflexivity|split; reflexivity].
  - destruct (eks.DescribeClusterOutput.Cluster output) as [cluster|].
    + apply andb_true_iff in Hk as [Hd Hf]. apply negb_true_iff in Hd, Hf.
      rewrite Hd, Hf. unfold callQueryFunc.
      destruct (first st), (queryFunc ret);
        do 2 eexists; (split; [reflexivity|split; reflexivity]).
    + do 2 eexists; split; [reflexivity|split; reflexivity].
Qed.

Lemma PollUpdate_body_quiet desired iw pi ret st it :
  quiet (keepsPollingUpdate desired) it ->
  exists done st',
    PollUpdate_body GoU desired iw pi ret st it = (done, Some st') /\
    describes done = [response it] /\ length (events done) = 1%nat.
Proof.
  intros (_ & Hs & Hi & Hk). unfold keepsPollingUpdate in Hk. unfold PollUpdate_body.
  rewrite Hs, Hi. destruct (response it) as [output [e|]]; simpl in Hk |- *.
  - apply negb_true_iff in Hk. rewrite Hk.
    do 2 eexists; split; [reflexivity|split; reflexivity].
  - destruct (eks.DescribeUpdateOutput.Update output) as [update|].
    + apply andb_true_iff in Hk as [Hk Hf]. apply andb_true_iff in Hk as [Hd Hc].
      apply negb_true_iff in Hd, Hc, Hf.
      rewrite Hd, Hc, Hf. unfold callQueryFunc.
      destruct (first st), (queryFunc ret);
        do 2 eexists; (split; [reflexivity|split; reflexivity]).
    + do 2 eexists; split; [reflexivity|split; reflexivity].
Qed.

Lemma Poll_loop_quiet desired iw pi ret script : forall st,
  Forall (quiet (keepsPolling desired)) script ->
  snd (Poll_loop DEL GoC desired iw pi ret st script) = false /\
  describes (fst (Poll_loop DEL GoC desired iw pi ret st script)) = map response script /\
  length (events (fst (Poll_loop DEL GoC desired iw pi ret st script))) = length script.
Proof.
  induction script as [|it script IH]; intros st Hq; [repeat split|].
  inversion Hq as [|? ? Hit Hrest]; subst.
  destruct (Poll_body_quiet desired iw pi ret st it Hit) as (done & st' & Hb & Hd & He).
  destruct Hit as (Hc & _). simpl. rewrite Hc, Hb.
  destruct (IH st' Hrest) as (Hr & Hds & Hes).
  destruct (Poll_loop DEL GoC desired iw pi ret st' script) as [rest r]. simpl in *.
  rewrite describes_app, events_app, length_app, Hd, He, Hds, Hes. repeat split; assumption.
Qed.

Lemma PollUpdate_loop_quiet desired iw pi ret script : forall st,
  Forall (quiet (keepsPollingUpdate desired)) script ->
  snd (PollUpdate_loop GoU desired iw pi ret st script) = false /\
  describes (fst (PollUpdate_loop GoU desired iw pi ret st script)) = map response script /\
  length (events (fst (PollUpdate_loop GoU desired iw pi ret st script))) = length script.
Proof.
  induction script as [|it script IH]; intros st Hq; [repeat split|].
  inversion Hq as [|? ? Hit Hrest]; subst.
  destruct (PollUpdate_body_quiet desired iw pi ret st it Hit) as (done & st' & Hb & Hd & He).
  destruct Hit as (Hc & _). simpl. rewrite Hc, Hb.
  destruct (IH st' Hrest) as (Hr & Hds & Hes).
  destruct (PollUpdate_loop GoU desired iw pi ret st' script) as [rest r]. simpl in *.
  rewrite describes_app, events_app, length_app, Hd, He, Hds, Hes. repeat split; assumption.
Qed.

(** X5. The goroutine does not give up on its own: as long as the context
    is live, no signal is taken at either wait, and every response is one
    the loop goes on after (an error not taken for absence, an empty
    payload, or a status that is neither the desired one nor a failure one,
    in any mix), the goroutine has not returned and the channel is open; it
    has made one Describe call per pass and sent exactly one event for each.
    There is no retry budget. *)
Theorem polling_goes_on_without_a_cause_to_stop :
  (forall desired iw pi opts script,
      Forall (quiet (keepsPolling desired)) script ->
      snd (Poll DEL GoC desired iw pi opts script) = false /\
      ~ In Close (fst (Poll DEL GoC desired iw pi opts script)) /\
      describes (fst (Poll DEL GoC desired iw pi opts script)) = map response script /\
      length (events (fst (Poll DEL GoC desired iw pi opts script))) = length script) /\
  (forall desired iw pi opts script,
      Forall (quiet (keepsPollingUpdate desired)) script ->
      snd (PollUpdate GoU desired iw pi opts script) = false /\
      ~ In Close (fst (PollUpdate GoU desired iw pi opts script)) /\
      describes (fst (PollUpdate GoU desired iw pi opts script)) = map response script /\
      length (events (fst (PollUpdate GoU desired iw pi opts script))) = length script).
Proof.
  split; intros desired iw pi opts script Hq.
  - unfold Poll.
    destruct (Poll_loop_quiet desired iw pi (applyOpts {| queryFunc := None |} opts)
                script {| waitDur := 0; first := true |} Hq) as (Hr & Hd & He).
    repeat split; try assumption.
    intros Hin. apply Poll_returned_of_close in Hin. congruence.
  - unfold PollUpdate.
    destruct (PollUpdate_loop_quiet desired iw pi (applyOpts {| queryFunc := None |} opts)
                script {| waitDur := 0; first := true |} Hq) as (Hr & Hd & He).
    repeat split; try assumption.
    intros Hin. apply PollUpdate_returned_of_close in Hin. congruence.
Qed.

Lemma Poll_loop_timers desired iw pi ret script : forall st,
  headTimers (fst (Poll_loop DEL GoC desired iw pi ret st script)) =
    waits (waitDur st) pi
      (length (describes (fst (Poll_loop DEL GoC desired iw pi ret st script)))) /\
  (sleepTimers (fst (Poll_loop DEL GoC desired iw pi ret st script)) = [] \/
   (first st = true /\
    sleepTimers (fst (Poll_loop DEL GoC desired iw pi ret st script)) = [iw])) /\
  starts_waiting (fst (Poll_loop DEL GoC desired iw pi ret st script)).
Proof.
  induction script as [|it script IH]; intros st.
  - timers_case waits_next.
  - simpl. destruct (ctxErr it); [timers_case waits_next|].
    destruct (Poll_body DEL GoC desired iw pi ret st it) as [done [st'|]] eqn:Hb.
    + specialize (IH st').
      destruct (Poll_loop DEL GoC desired iw pi ret st' script) as [rest r].
      simpl in IH. destruct IH as (Hh & Hs & Hw).
      destruct rest as [|[] rest'];
        try (exfalso; eapply Hw; reflexivity);
        body_cases Hb; timers_case waits_next.
    + body_cases Hb; timers_case waits_next.
Qed.

Lemma PollUpdate_loop_timers desired iw pi ret script : forall st,
  headTimers (fst (PollUpdate_loop GoU desired iw pi ret st script)) =
    waits (waitDur st) pi
      (length (describes (fst (PollUpdate_loop GoU desired iw pi ret st script)))) /\
  (sleepTimers (fst (PollUpdate_loop GoU desired iw pi ret st script)) = [] \/
   (first st = true /\
    sleepTimers (fst (PollUpdate_loop GoU desired iw pi ret st script)) = [iw])) /\
  starts_waiting (fst (PollUpdate_loop GoU desired iw pi ret st script)).
Proof.
  induction script as [|it script IH]; intros st.
  - timers_case waits_next.
  - simpl. destruct (ctxErr it); [timers_case waits_next|].
    destruct (PollUpdate_body GoU desired iw pi ret st it) as [done [st'|]] eqn:Hb.
    + specialize (IH st').
      destruct (PollUpdate_loop GoU desired iw pi ret st' script) as [rest r].
      simpl in IH. destruct IH as (Hh & Hs & Hw).
      destruct rest as [|[] rest'];
        try (exfalso; eapply Hw; reflexivity);
        body_cases Hb; timers_case waits_next.
    + body_cases Hb; timers_case waits_next.
Qed.

(** X6. In every run, the timer the goroutine waits on before its first
    Describe call has duration zero and the timer before each later call has
    the poll interval, whatever the responses in between; the only other
    timer of a run is the initial wait, and it is waited on at most once. *)
Theorem waits_between_queries :
  (forall desired iw pi opts script,
      headTimers (fst (Poll DEL GoC desired iw pi opts script)) =
        match length (describes (fst (Poll DEL GoC desired iw pi opts script))) with
        | O => []
        | S n => 0 :: repeat pi n
        end /\
      (sleepTimers (fst (Poll DEL GoC desired iw pi opts script)) = [] \/
       sleepTimers (fst (Poll DEL GoC desired iw pi opts script)) = [iw])) /\
  (forall desired iw pi opts script,
      headTimers (fst (PollUpdate GoU desired iw pi opts script)) =
        match length (describes (fst (PollUpdate GoU desired iw pi opts script))) with
        | O => []
        | S n => 0 :: repeat pi n
        end /\
      (sleepTimers (fst (PollUpdate GoU desired iw pi opts script)) = [] \/
       sleepTimers (fst (PollUpdate GoU desired iw pi opts script)) = [iw])).
Proof.
  split; intros desired iw pi opts script.
  - unfold Poll.
    destruct (Poll_loop_timers desired iw pi (applyOpts {| queryFunc := None |} opts)
                script {| waitDur := 0; first := true |}) as (Hh & Hs & _).
    split; [exact Hh|]. destruct Hs as [Hs|[_ Hs]]; auto.
  - unfold PollUpdate.
    destruct (PollUpdate_loop_timers desired iw pi (applyOpts {| queryFunc := None |} opts)
                script {| waitDur := 0; first := true |}) as (Hh & Hs & _).
    split; [exact Hh|]. destruct Hs as [Hs|[_ Hs]]; auto.
Qed.

Lemma PollUpdate_body_pending desired iw pi ret st output update :
  eks.DescribeUpdateOutput.Update output = Some update ->
  pendingUpdate desired update ->
  PollUpdate_body GoU desired iw pi ret st (answers (output, None)) =
  ([RecvTimer (waitDur st); Describe output None;
    Send {| UpdateStatus.Update := Some update; UpdateStatus.Error := None |}] ++
   callQueryFunc ret ++ (if first st then [RecvTimer iw] else []),
   Some {| waitDur := nextWaitDur (waitDur st) pi; first := false |}).
Proof.
  intros Hu (Hd & Hc & Hf). apply String.eqb_neq in Hd, Hc, Hf.
  unfold PollUpdate_body; simpl. rewrite Hu, Hd, Hc, Hf.
  destruct st as [w [|]]; simpl; [reflexivity|].
  rewrite app_nil_r. reflexivity.
Qed.

Lemma afterRetries_first {A} pi st (rs : list A) :
  first (afterRetries pi st rs) = first st.
Proof. destruct rs; reflexivity. Qed.

Lemma waits_snoc {A} pi (rs : list A) :
  waits 0 pi (length rs) ++
  [waitDur (afterRetries pi {| waitDur := 0; first := true |} rs)] =
  0 :: repeat pi (length rs).
Proof.
  destruct rs as [|r rs]; [reflexivity|]. simpl.
  change (nextWaitDur 0 pi) with pi. f_equal.
  induction rs as [|r' rs IH]; simpl; [reflexivity|]. f_equal. exact IH.
Qed.

(** X7. The initial wait is tied to the first snapshot that leaves the run
    pending, not to the first pass: when the first responses are retried
    ones (errors not taken for absence, empty payloads) and a pending
    snapshot comes after them, the goroutine waits the poll interval between
    the queries as usual and starts the initial wait only after it has sent
    that snapshot (and called the configured func). *)
Theorem initial_wait_follows_first_pending_snapshot :
  (forall desired iw pi opts rs output cluster,
      Forall (fun r => retried IsDeleted eks.DescribeClusterOutput.Cluster r = true) rs ->
      eks.DescribeClusterOutput.Cluster output = Some cluster ->
      pending desired cluster ->
      let run := Poll DEL GoC desired iw pi opts
                      (map answers rs ++ [answers (output, None)]) in
      snd run = false /\
      timers (fst run) = (0 :: repeat pi (length rs)) ++ [iw] /\
      exists body,
        fst run =
          body ++
          [Send {| ClusterStatus.Cluster := Some cluster; ClusterStatus.Error := None |}] ++
          callQueryFunc (applyOpts {| queryFunc := None |} opts) ++ [RecvTimer iw]) /\
  (forall desired iw pi opts rs output update,
      Forall (fun r => retried updateNotExists eks.DescribeUpdateOutput.Update r = true) rs ->
      eks.DescribeUpdateOutput.Update output = Some update ->
      pendingUpdate desired update ->
      let run := PollUpdate GoU desired iw pi opts
                            (map answers rs ++ [answers (output, None)]) in
      snd run = false /\
      timers (fst run) = (0 :: repeat pi (length rs)) ++ [iw] /\
      exists body,
        fst run =
          body ++
          [Send {| UpdateStatus.Update := Some update; UpdateStatus.Error := None |}] ++
          callQueryFunc (applyOpts {| queryFunc := None |} opts) ++ [RecvTimer iw]).
Proof.
  split; intros desired iw pi opts rs output x Hrs Hx Hp run; subst run.
  - unfold Poll.
    set (ret := applyOpts {| queryFunc := None |} opts).
    destruct (Poll_loop_retries DEL GoC desired iw pi ret rs
                {| waitDur := 0; first := true |} Hrs) as (tr & Hrun & _ & Htm).
    rewrite Hrun. cbn [Poll_loop].
    change (ctxErr (answers (output, None))) with (@None CtxError). cbv iota.
    rewrite (Poll_body_pending DEL GoC _ _ _ _ _ _ _ Hx Hp).
    rewrite afterRetries_first. cbn [first fst snd]. rewrite !app_nil_r.
    split; [reflexivity|]. split.
    + unfold callQueryFunc. destruct (queryFunc ret);
        rewrite timers_app, Htm; cbn [timers app waitDur];
        (transitivity
           ((waits 0 pi (length rs) ++
             [waitDur (afterRetries pi {| waitDur := 0; first := true |} rs)]) ++ [iw]);
         [rewrite <- app_assoc; reflexivity|rewrite waits_snoc; reflexivity]).
    + exists (tr ++ [RecvTimer (waitDur (afterRetries pi {| waitDur := 0; first := true |} rs));
                     Describe output None]).
      rewrite <- !app_assoc. reflexivity.
  - unfold PollUpdate.
    set (ret := applyOpts {| queryFunc := None |} opts).
    destruct (PollUpdate_loop_retries GoU desired iw pi ret rs
                {| waitDur := 0; first := true |} Hrs) as (tr & Hrun & _ & Htm).
    rewrite Hrun. cbn [PollUpdate_loop].
    change (ctxErr (answers (output, None))) with (@None CtxError). cbv iota.
    rewrite (PollUpdate_body_pending _ _ _ _ _ _ _ Hx Hp).
    rewrite afterRetries_first. cbn [first fst snd]. rewrite !app_nil_r.
    split; [reflexivity|]. split.
    + unfold callQueryFunc. destruct (queryFunc ret);
        rewrite timers_app, Htm; cbn [timers app waitDur];
        (transitivity
           ((waits 0 pi (length rs) ++
             [waitDur (afterRetries pi {| waitDur := 0; first := true |} rs)]) ++ [iw]);
         [rewrite <- app_assoc; reflexivity|rewrite waits_snoc; reflexivity]).
    + exists (tr ++ [RecvTimer (waitDur (afterRetries pi {| waitDur := 0; first := true |} rs));
                     Describe output None]).
      rewrite <- !app_assoc. reflexivity.
Qed.

Lemma Poll_loop_event_count desired iw pi ret script st :
  (length (describes (fst (Poll_loop DEL GoC desired iw pi ret st script))) <=
   length (events (fst (Poll_loop DEL GoC desired iw pi ret st script))) <=
   length (describes (fst (Poll_loop DEL GoC desired iw pi ret st script))) +
   (if snd (Poll_loop DEL GoC desired iw pi ret st script) then 1 else 0))%nat.
Proof.
  apply (Poll_loop_rule DEL GoC
           (fun tr r => (length (describes tr) <= length (events tr) <=
                         length (describes tr) + (if r then 1 else 0))%nat)).
  - simpl; lia.
  - intros e; simpl; lia.
  - intros st' it done H. body_cases H; simpl; lia.
  - intros st' it done st'' rest r H Hrest.
    rewrite describes_app, events_app, !length_app.
    body_cases H; simpl; lia.
Qed.

Lemma PollUpdate_loop_event_count desired iw pi ret script st :
  (length (describes (fst (PollUpdate_loop GoU desired iw pi ret st script))) <=
   length (events (fst (PollUpdate_loop GoU desired iw pi ret st script))) <=
   length (describes (fst (PollUpdate_loop GoU desired iw pi ret st script))) +
   (if snd (PollUpdate_loop GoU desired iw pi ret st script) then 1 else 0))%nat.
Proof.
  apply (PollUpdate_loop_rule GoU
           (fun tr r => (length (describes tr) <= length (events tr) <=
                         length (describes tr) + (if r then 1 else 0))%nat)).
  - simpl; lia.
  - intros e; simpl; lia.
  - intros st' it done H. body_cases H; simpl; lia.
  - intros st' it done st'' rest r H Hrest.
    rewrite describes_app, events_app, !length_app.
    body_cases H; simpl; lia.
Qed.

(** X8. A run sends one event per Describe call and at most one more: while
    the loop is going the events are as many as the calls, and a goroutine
    that returned has sent as many or one more (the error of the context or
    of the stop, which answers no call). *)
Theorem one_event_per_query_and_one_more :
  (forall desired iw pi opts script,
      (length (describes (fst (Poll DEL GoC desired iw pi opts script))) <=
       length (events (fst (Poll DEL GoC desired iw pi opts script))) <=
       length (describes (fst (Poll DEL GoC desired iw pi opts script))) +
       (if snd (Poll DEL GoC desired iw pi opts script) then 1 else 0))%nat) /\
  (forall desired iw pi opts script,
      (length (describes (fst (PollUpdate GoU desired iw pi opts script))) <=
       length (events (fst (PollUpdate GoU desired iw pi opts script))) <=
       length (describes (fst (PollUpdate GoU desired iw pi opts script))) +
       (if snd (PollUpdate GoU desired iw pi opts script) then 1 else 0))%nat).
Proof.
  split; intros; [apply Poll_loop_event_count|apply PollUpdate_loop_event_count].
Qed.

End Further.

(** ** The further properties on concrete runs *)

(** ACTIVE is desired and comes at the first query, in [Poll] and in
    [PollUpdate] (there as Successful). *)
Lemma desired_status_ends_the_run_witness :
  (fst (Sample.Poll "ACTIVE" 0 0 [] [answers (Sample.gotCluster "ACTIVE")]) =
     [RecvTimer 0] ++ Describe (fst (Sample.gotCluster "ACTIVE")) None
     :: [Send (Sample.snapshot "ACTIVE"); Close] /\
   snd (Sample.Poll "ACTIVE" 0 0 [] [answers (Sample.gotCluster "ACTIVE")]) = true) /\
  (fst (Sample.PollUpdate "Successful" 0 0 [] [answers (Sample.gotUpdate "Successful")]) =
     [RecvTimer 0] ++ Describe (fst (Sample.gotUpdate "Successful")) None
     :: [Send {| UpdateStatus.Update := Some (Sample.update "Successful");
                 UpdateStatus.Error := None |}; Close] /\
   snd (Sample.PollUpdate "Successful" 0 0 []
          [answers (Sample.gotUpdate "Successful")]) = true).
Proof.
  split; (split; [reflexivity|]).
  - exact (proj2 (proj1 (desired_status_ends_the_run Sample.DELETEDORNOTEXIST
                           Sample.GoStringC Sample.GoStringU)
                    "ACTIVE"%string 0 0 [] [answers (Sample.gotCluster "ACTIVE")]
                    [RecvTimer 0] (fst (Sample.gotCluster "ACTIVE")) (Sample.cluster "ACTIVE")
                    [Send (Sample.snapshot "ACTIVE"); Close] eq_refl eq_refl eq_refl)).
  - exact (proj2 (proj2 (desired_status_ends_the_run Sample.DELETEDORNOTEXIST
                           Sample.GoStringC Sample.GoStringU)
                    "Successful"%string 0 0 [] [answers (Sample.gotUpdate "Successful")]
                    [RecvTimer 0] (fst (Sample.gotUpdate "Successful"))
                    (Sample.update "Successful")
                    [Send {| UpdateStatus.Update := Some (Sample.update "Successful");
                             UpdateStatus.Error := None |}; Close]
                    eq_refl eq_refl eq_refl)).
Defined.

(** FAILED comes while ACTIVE is desired; Cancelled comes while Successful
    is desired. *)
Lemma failure_status_ends_the_run_witness :
  ("ACTIVE"%string <> eks.ClusterStatusFailed /\
   fst (Sample.Poll "ACTIVE" 0 0 [] [answers (Sample.gotCluster "FAILED")]) =
     [RecvTimer 0] ++ Describe (fst (Sample.gotCluster "FAILED")) None
     :: [Send {| ClusterStatus.Cluster := Some (Sample.cluster "FAILED");
                 ClusterStatus.Error := Some (errClusterStatus eks.ClusterStatusFailed) |};
         Close] /\
   snd (Sample.Poll "ACTIVE" 0 0 [] [answers (Sample.gotCluster "FAILED")]) = true) /\
  ("Successful"%string <> eks.UpdateStatusCancelled /\
   fst (Sample.PollUpdate "Successful" 0 0 [] [answers (Sample.gotUpdate "Cancelled")]) =
     [RecvTimer 0] ++ Describe (fst (Sample.gotUpdate "Cancelled")) None
     :: [Send {| UpdateStatus.Update := Some (Sample.update "Cancelled");
                 UpdateStatus.Error := Some (errUpdateStatus eks.UpdateStatusCancelled) |};
         Close] /\
   snd (Sample.PollUpdate "Successful" 0 0 []
          [answers (Sample.gotUpdate "Cancelled")]) = true).
Proof.
  assert (Hc : "ACTIVE"%string <> eks.ClusterStatusFailed) by discriminate.
  assert (Hu : "Successful"%string <> eks.UpdateStatusCancelled) by discriminate.
  split; (split; [assumption|split; [reflexivity|]]).
  - exact (proj2 (proj1 (failure_status_ends_the_run Sample.DELETEDORNOTEXIST
                           Sample.GoStringC Sample.GoStringU)
                    "ACTIVE"%string 0 0 [] [answers (Sample.gotCluster "FAILED")]
                    [RecvTimer 0] (fst (Sample.gotCluster "FAILED")) (Sample.cluster "FAILED")
                    [Send {| ClusterStatus.Cluster := Some (Sample.cluster "FAILED");
                             ClusterStatus.Error :=
                               Some (errClusterStatus eks.ClusterStatusFailed) |}; Close]
                    eq_refl eq_refl eq_refl Hc)).
  - exact (proj2 (proj2 (failure_status_ends_the_run Sample.DELETEDORNOTEXIST
                           Sample.GoStringC Sample.GoStringU)
                    "Successful"%string 0 0 [] [answers (Sample.gotUpdate "Cancelled")]
                    [RecvTimer 0] (fst (Sample.gotUpdate "Cancelled"))
                    (Sample.update "Cancelled") eks.UpdateStatusCancelled
                    [Send {| UpdateStatus.Update := Some (Sample.update "Cancelled");
                             UpdateStatus.Error :=
                               Some (errUpdateStatus eks.UpdateStatusCancelled) |}; Close]
                    eq_refl eq_refl eq_refl (or_introl eq_refl) Hu)).
Defined.

(** A throttled query, reported at once. *)
Lemma every_response_is_reported_witness :
  fst (Sample.Poll "ACTIVE" 7 3 [] [answers (Sample.failedC Sample.throttled)]) =
    [RecvTimer 0] ++
    Describe (fst (Sample.failedC Sample.throttled)) (Some Sample.throttled)
    :: [Send (Sample.failure Sample.throttled)] /\
  exists ev post',
    [Send (Sample.failure Sample.throttled)] =
    @Send eks.DescribeClusterOutput.t ClusterStatus.t ev :: post' /\
    ClusterStatus.Cluster ev = None /\
    (ClusterStatus.Error ev = Some Sample.throttled \/
     (ClusterStatus.Error ev = None /\ IsDeleted (Some Sample.throttled) = true /\
      "ACTIVE"%string = Sample.DELETEDORNOTEXIST)).
Proof.
  split; [reflexivity|].
  exact (proj1 (every_response_is_reported Sample.DELETEDORNOTEXIST
                  Sample.GoStringC Sample.GoStringU)
           "ACTIVE"%string 7 3 [] [answers (Sample.failedC Sample.throttled)]
           [RecvTimer 0] (fst (Sample.failedC Sample.throttled)) (Some Sample.throttled)
           [Send (Sample.failure Sample.throttled)] eq_refl).
Defined.

(** A run that the guard of the loop ends: the last event is the context's
    error. *)
Lemma last_event_before_close_witness :
  snd (Sample.Poll "ACTIVE" 7 3 [] Sample.expired_at_guard) = true /\
  exists pre ev,
    fst (Sample.Poll "ACTIVE" 7 3 [] Sample.expired_at_guard) = pre ++ [Send ev; Close] /\
    final_event Sample.DELETEDORNOTEXIST "ACTIVE" ev.
Proof.
  split; [reflexivity|].
  exact (proj1 (last_event_before_close Sample.DELETEDORNOTEXIST
                  Sample.GoStringC Sample.GoStringU)
           "ACTIVE"%string 7 3 [] Sample.expired_at_guard eq_refl).
Defined.

(** A throttled query and then a status still pending. *)
Lemma polling_goes_on_without_a_cause_to_stop_witness :
  Forall (quiet (keepsPolling "ACTIVE"))
    [answers (Sample.failedC Sample.throttled); answers (Sample.gotCluster "CREATING")] /\
  snd (Sample.Poll "ACTIVE" 7 3 []
         [answers (Sample.failedC Sample.throttled);
          answers (Sample.gotCluster "CREATING")]) = false /\
  length (events (fst (Sample.Poll "ACTIVE" 7 3 []
                         [answers (Sample.failedC Sample.throttled);
                          answers (Sample.gotCluster "CREATING")]))) = 2%nat.
Proof.
  assert (Hq : Forall (quiet (keepsPolling "ACTIVE"))
                 [answers (Sample.failedC Sample.throttled);
                  answers (Sample.gotCluster "CREATING")])
    by (repeat constructor).
  destruct (proj1 (polling_goes_on_without_a_cause_to_stop Sample.DELETEDORNOTEXIST
                     Sample.GoStringC Sample.GoStringU)
              "ACTIVE"%string 7 3 []
              [answers (Sample.failedC Sample.throttled);
               answers (Sample.gotCluster "CREATING")] Hq) as (Hr & _ & _ & He).
  split; [exact Hq|]. split; [exact Hr|exact He].
Defined.

(** A throttled query, then CREATING: the timers are 0, the poll interval
    and only then the initial wait. *)
Lemma initial_wait_follows_first_pending_snapshot_witness :
  (Forall (fun r => retried IsDeleted eks.DescribeClusterOutput.Cluster r = true)
     [Sample.failedC Sample.throttled] /\
   pending "ACTIVE" (Sample.cluster "CREATING")) /\
  snd (Sample.Poll "ACTIVE" 7 3 []
         [answers (Sample.failedC Sample.throttled);
          answers (Sample.gotCluster "CREATING")]) = false /\
  timers (fst (Sample.Poll "ACTIVE" 7 3 []
                 [answers (Sample.failedC Sample.throttled);
                  answers (Sample.gotCluster "CREATING")])) = [0; 3; 7].
Proof.
  assert (Hrs : Forall (fun r => retried IsDeleted eks.DescribeClusterOutput.Cluster r = true)
                  [Sample.failedC Sample.throttled])
    by (constructor; [reflexivity|constructor]).
  assert (Hp : pending "ACTIVE" (Sample.cluster "CREATING"))
    by (split; simpl; discriminate).
  destruct (proj1 (initial_wait_follows_first_pending_snapshot Sample.DELETEDORNOTEXIST
                     Sample.GoStringC Sample.GoStringU)
              "ACTIVE"%string 7 3 [] [Sample.failedC Sample.throttled]
              (fst (Sample.gotCluster "CREATING")) (Sample.cluster "CREATING")
              Hrs eq_refl Hp) as (Hr & Ht & _).
  split; [split; assumption|]. split; [exact Hr|exact Ht].
Defined.

Example timers_of_creating_creating_active :
  headTimers (fst (Sample.Poll "ACTIVE" (30 * time.Second) (5 * time.Second) []
                     Sample.creating_creating_active)) =
    [0; 5 * time.Second; 5 * time.Second] /\
  sleepTimers (fst (Sample.Poll "ACTIVE" (30 * time.Second) (5 * time.Second) []
                      Sample.creating_creating_active)) =
    [30 * time.Second] /\
  length (describes (fst (Sample.Poll "ACTIVE" (30 * time.Second) (5 * time.Second) []
                            Sample.creating_creating_active))) = 3%nat.
Proof. repeat split; reflexivity. Qed.
